(** * The calculator module (app/calculator.py), embedded in Rocq.

    The module offers seven arithmetic primitives and [evaluate_expression],
    which sanitises a text formula and hands it to Python's [eval].  Python
    values are modelled as the interpreter has them: [int] is an unbounded
    integer ([Z]), [float] is an IEEE 754 binary64 number (the kernel's
    primitive [float], round to nearest even), exceptions are values of an
    error monad, and [str] is a sequence of characters. *)

From Stdlib Require Import ZArith List Bool Ascii String Lia DecimalString.
From Stdlib Require Import Floats.
Import ListNotations.

Local Open Scope string_scope.

(** ** Exceptions *)

(** The exception classes that the module or the expressions it evaluates can
    raise, with Python's hierarchy: [parent] is the base class. *)
Inductive exn_class : Set :=
| BaseException
| Exception
| KeyboardInterrupt
| SystemExit
| ArithmeticError
| ZeroDivisionError
| OverflowError
| ValueError
| TypeError
| SyntaxError
| NameError
| AttributeError
| MemoryError
| RuntimeError
| RecursionError
| CalculatorError.   (* class CalculatorError(Exception) *)

Definition parent (c : exn_class) : option exn_class :=
  match c with
  | BaseException => None
  | Exception | KeyboardInterrupt | SystemExit => Some BaseException
  | ZeroDivisionError | OverflowError => Some ArithmeticError
  | RecursionError => Some RuntimeError
  | ArithmeticError | ValueError | TypeError | SyntaxError | NameError
  | AttributeError | MemoryError | RuntimeError | CalculatorError => Some Exception
  end.

Definition exn_class_eqb (c d : exn_class) : bool :=
  match c, d with
  | BaseException, BaseException | Exception, Exception
  | KeyboardInterrupt, KeyboardInterrupt | SystemExit, SystemExit
  | ArithmeticError, ArithmeticError | ZeroDivisionError, ZeroDivisionError
  | OverflowError, OverflowError | ValueError, ValueError
  | TypeError, TypeError | SyntaxError, SyntaxError | NameError, NameError
  | AttributeError, AttributeError | MemoryError, MemoryError
  | RuntimeError, RuntimeError | RecursionError, RecursionError
  | CalculatorError, CalculatorError => true
  | _, _ => false
  end.

Fixpoint issubclass_upto (depth : nat) (c d : exn_class) : bool :=
  exn_class_eqb c d ||
  match depth, parent c with
  | S depth', Some p => issubclass_upto depth' p d
  | _, _ => false
  end.

(** [issubclass(c, d)]; the hierarchy above is three levels deep. *)
Definition issubclass : exn_class -> exn_class -> bool := issubclass_upto 3.

(** A raised exception: its class and [str(e)]. *)
Record exn : Set := mkExn { exn_cls : exn_class; exn_msg : string }.

(** The outcome of running Python code: a value, or a raised exception. *)
Inductive result (A : Type) : Type :=
| Return (a : A)
| Raise (e : exn).
Arguments Return {A} a.
Arguments Raise {A} e.

Definition bind {A B : Type} (c : result A) (k : A -> result B) : result B :=
  match c with
  | Return a => k a
  | Raise e => Raise e
  end.

Notation "x <- c ;; k" := (bind c (fun x => k))
  (at level 61, c at next level, right associativity).

Definition raise {A : Type} (c : exn_class) (msg : string) : result A :=
  Raise (mkExn c msg).

(** ** Numbers *)

(** The numeric values the primitives work on.  The annotations say [float],
    but Python does not enforce them and the tests pass [int]s. *)
Inductive number : Set :=
| Int (z : Z)
| Float (f : float).

(** Builtin functions reachable from the evaluator's namespace. *)
Inductive builtin : Set :=
| Abs          (* abs *)
| MathSqrt.    (* math.sqrt *)

(** A Python object: a number, a builtin function, or an object of some
    other type, of which only the type's name matters here. *)
Inductive value : Set :=
| Num (n : number)
| Fn (b : builtin)
| Module (name : string)
| Obj (type_name : string).

Definition type_name_of (v : value) : string :=
  match v with
  | Num (Int _) => "int"
  | Num (Float _) => "float"
  | Fn _ => "builtin_function_or_method"
  | Module _ => "module"
  | Obj t => t
  end.

(** [p/q] for positive integers, rounded to the nearest binary64 number. *)
Definition float_of_ratio (neg : bool) (p q : positive) : float :=
  let '(mz, ez, lz) := SFdiv_core_binary prec emax (Zpos p) 0 (Zpos q) 0 in
  SF2Prim (binary_round_aux prec emax neg mz ez lz).

(** [z] rounded to the nearest binary64 number (infinite when out of range). *)
Definition float_of_Z (z : Z) : float :=
  SF2Prim (binary_normalize prec emax z 0 false).

(** Conversion of an [int] to a C double: [PyLong_AsDouble]. *)
Definition int_to_float (z : Z) : result float :=
  let f := float_of_Z z in
  if is_infinity f then raise OverflowError "int too large to convert to float"
  else Return f.

Definition as_float (n : number) : result float :=
  match n with
  | Int z => int_to_float z
  | Float f => Return f
  end.

(** Exact comparison of a float with an integer, as Python compares mixed
    operands; [None] when the float is NaN. *)
Definition compare_float_Z (f : float) (z : Z) : option comparison :=
  match Prim2SF f with
  | S754_nan => None
  | S754_infinity s => Some (if s then Lt else Gt)
  | S754_zero _ => Some (0 ?= z)%Z
  | S754_finite s m e =>
      let v := cond_Zopp s (Zpos m) in
      Some (if (0 <=? e)%Z then (v * 2 ^ e ?= z)%Z else (v ?= z * 2 ^ (- e))%Z)
  end.

(** [a == b] *)
Definition py_eq (a b : number) : bool :=
  match a, b with
  | Int x, Int y => (x =? y)%Z
  | Float x, Float y => (x =? y)%float
  | Float x, Int y | Int y, Float x =>
      match compare_float_Z x y with Some Eq => true | _ => false end
  end.

(** [a < b] *)
Definition py_lt (a b : number) : bool :=
  match a, b with
  | Int x, Int y => (x <? y)%Z
  | Float x, Float y => (x <? y)%float
  | Float x, Int y =>
      match compare_float_Z x y with Some Lt => true | _ => false end
  | Int x, Float y =>
      match compare_float_Z y x with Some Gt => true | _ => false end
  end.

(** [+], [-] and [*]: exact on two [int]s, otherwise both operands become
    floats and the IEEE operation is applied (it never raises). *)
Definition arith (iop : Z -> Z -> Z) (fop : float -> float -> float)
    (a b : number) : result number :=
  match a, b with
  | Int x, Int y => Return (Int (iop x y))
  | _, _ =>
      x <- as_float a ;;
      y <- as_float b ;;
      Return (Float (fop x y))
  end.

Definition py_add : number -> number -> result number := arith Z.add PrimFloat.add.
Definition py_sub : number -> number -> result number := arith Z.sub PrimFloat.sub.
Definition py_mul : number -> number -> result number := arith Z.mul PrimFloat.mul.

(** [a / b]: true division.  On two [int]s the exact quotient is rounded
    once; the sign of a zero result follows the signs of the operands. *)
Definition int_true_divide (x y : Z) : result number :=
  if (y =? 0)%Z then raise ZeroDivisionError "division by zero"
  else
    let neg := xorb (x <? 0)%Z (y <? 0)%Z in
    let f :=
      match Z.abs x, Z.abs y with
      | Zpos p, Zpos q => float_of_ratio neg p q
      | _, _ => if neg then neg_zero else zero
      end in
    if is_infinity f
    then raise OverflowError "integer division result too large for a float"
    else Return (Float f).

Definition py_truediv (a b : number) : result number :=
  match a, b with
  | Int x, Int y => int_true_divide x y
  | _, _ =>
      x <- as_float a ;;
      y <- as_float b ;;
      if (y =? 0)%float then raise ZeroDivisionError "float division by zero"
      else Return (Float (x / y)%float)
  end.

(** C's [fmod] on binary64 numbers: the remainder of the truncated quotient,
    which is exact and carries the sign of [x]. *)
Definition fmod (x y : float) : float :=
  match Prim2SF x, Prim2SF y with
  | S754_nan, _ | _, S754_nan => nan
  | S754_infinity _, _ => nan
  | _, S754_zero _ => nan
  | S754_zero _, _ => x
  | S754_finite _ _ _, S754_infinity _ => x
  | S754_finite sx mx ex, S754_finite _ my ey =>
      let e := Z.min ex ey in
      let r := ((Zpos mx * 2 ^ (ex - e)) mod (Zpos my * 2 ^ (ey - e)))%Z in
      SF2Prim (binary_normalize prec emax (cond_Zopp sx r) e sx)
  end.

(** [float.__mod__] for a non-zero divisor: [fmod], then the remainder is
    moved to the divisor's side. *)
Definition float_rem (vx wx : float) : float :=
  let md := fmod vx wx in
  if negb (md =? 0)%float then
    if negb (Bool.eqb (wx <? 0)%float (md <? 0)%float) then (md + wx)%float else md
  else
    if (wx <? 0)%float then neg_zero else zero.

(** [a % b] *)
Definition py_mod (a b : number) : result number :=
  match a, b with
  | Int x, Int y =>
      if (y =? 0)%Z then raise ZeroDivisionError "integer modulo by zero"
      else Return (Int (x mod y))
  | _, _ =>
      x <- as_float a ;;
      y <- as_float b ;;
      if (y =? 0)%float then raise ZeroDivisionError "float modulo"
      else Return (Float (float_rem x y))
  end.

(** [-a], [+a] and [abs(a)] *)
Definition py_neg (a : number) : number :=
  match a with
  | Int x => Int (- x)
  | Float x => Float (- x)%float
  end.

Definition py_abs (a : number) : number :=
  match a with
  | Int x => Int (Z.abs x)
  | Float x => Float (PrimFloat.abs x)
  end.

(** The argument conversion of the [math] functions: [PyFloat_AsDouble]. *)
Definition to_double (v : value) : result float :=
  match v with
  | Num n => as_float n
  | _ => raise TypeError ("must be real number, not " ++ type_name_of v)
  end.

(** [math.isinf(v)] and [math.isnan(v)] *)
Definition math_isinf (v : value) : result bool :=
  x <- to_double v ;; Return (is_infinity x).

Definition math_isnan (v : value) : result bool :=
  x <- to_double v ;; Return (is_nan x).

(** [math.sqrt(v)]: a NaN result from an argument that is not NaN is a
    domain error (the message is CPython's, up to version 3.13). *)
Definition math_sqrt (v : value) : result number :=
  x <- to_double v ;;
  let r := PrimFloat.sqrt x in
  if is_nan r && negb (is_nan x) then raise ValueError "math domain error"
  else Return (Float r).

(** [float(v)] for the objects of this model. *)
Definition py_float (v : value) : result float :=
  match v with
  | Num n => as_float n
  | _ =>
      raise TypeError
        ("float() argument must be a string or a real number, not '"
           ++ type_name_of v ++ "'")
  end.

(** ** Strings *)

(** A [str] is modelled as a [string] whose characters are the code points
    below 256. *)

(** [c in s] for a single character [c]. *)
Fixpoint char_in (c : ascii) (s : string) : bool :=
  match s with
  | EmptyString => false
  | String d s' => Ascii.eqb c d || char_in c s'
  end.

(** [all(p(c) for c in s)] *)
Fixpoint str_all (p : ascii -> bool) (s : string) : bool :=
  match s with
  | EmptyString => true
  | String c s' => p c && str_all p s'
  end.

(** [c.isdigit()]: the ASCII digits and, below 256, the superscripts
    U+00B2, U+00B3 and U+00B9. *)
Definition isdigit (c : ascii) : bool :=
  let n := nat_of_ascii c in
  ((48 <=? n) && (n <=? 57) || (n =? 178) || (n =? 179) || (n =? 185))%nat.

Fixpoint intersperse (sep s : string) : string :=
  match s with
  | EmptyString => sep
  | String c s' => sep ++ String c (intersperse sep s')
  end.

(** The scan of [str.replace]: [skip] counts the characters of a match that
    are still to be dropped. *)
Fixpoint replace_from (old new : string) (skip : nat) (s : string) : string :=
  match s with
  | EmptyString => EmptyString
  | String c s' =>
      match skip with
      | S k => replace_from old new k s'
      | O =>
          if prefix old s then new ++ replace_from old new (length old - 1) s'
          else String c (replace_from old new 0 s')
      end
  end.

(** [s.replace(old, new)]: every occurrence of [old], found from the left
    and without overlap, becomes [new]. *)
Definition str_replace (s old new : string) : string :=
  match old with
  | EmptyString => intersperse new s
  | _ => replace_from old new 0 s
  end.

Fixpoint count_from (sub : string) (skip : nat) (s : string) : nat :=
  match s with
  | EmptyString => 0
  | String c s' =>
      match skip with
      | S k => count_from sub k s'
      | O =>
          if prefix sub s then S (count_from sub (length sub - 1) s')
          else count_from sub 0 s'
      end
  end.

(** [s.count(sub)]: the number of occurrences of [sub] without overlap. *)
Definition str_count (s sub : string) : nat :=
  match sub with
  | EmptyString => S (length s)
  | _ => count_from sub 0 s
  end.

(** ** A fragment of Python's expression language *)

(** The expressions interpreted here are built from decimal integer and
    floating-point literals, names, attribute references, calls with one
    argument, unary [+] and [-], and binary [+ - * / **], with Python's
    precedence and associativity.  [None] always means "outside the
    fragment", never "rejected by Python". *)

Inductive operator : Set := Plus | Minus | Star | Slash | DoubleStar | DoubleSlash.

Inductive token : Set :=
| TNum (n : number)
| TName (x : string)
| TOp (o : operator)
| TLParen
| TRParen
| TDot.

Definition is_ascii_digit (c : ascii) : bool :=
  let n := nat_of_ascii c in ((48 <=? n) && (n <=? 57))%nat.

Definition digit_value (c : ascii) : Z := Z.of_nat (nat_of_ascii c - 48).

Definition is_name_start (c : ascii) : bool :=
  let n := nat_of_ascii c in
  ((97 <=? n) && (n <=? 122) || (65 <=? n) && (n <=? 90) || (n =? 95))%nat.

Definition is_name_char (c : ascii) : bool := is_name_start c || is_ascii_digit c.

(** An integer literal longer than this is rejected by recent interpreters. *)
Definition max_int_digits : nat := 4300.

(** The value of the literal [m] written with [scale] digits after the
    point: the decimal number rounded once. *)
Definition float_of_decimal (m : Z) (scale : nat) : float :=
  match m with
  | Zpos p => float_of_ratio false p (Z.to_pos (10 ^ Z.of_nat scale))
  | _ => zero
  end.

Inductive lex_state : Set :=
| LStart
| LInt (v : Z) (len : nat) (zero_first : bool)   (* digits read so far *)
| LFrac (m : Z) (scale : nat)                     (* digits, some after a point *)
| LName (x : string)
| LStar                                           (* one [*] read *)
| LSlash                                          (* one [/] read *)
| LDot.                                           (* one [.] read *)

(** The token that ends in state [st], if it is a token of the fragment. *)
Definition flush (st : lex_state) : option (list token) :=
  match st with
  | LStart => Some []
  | LInt v len zero_first =>
      if (zero_first && negb (v =? 0)%Z) || (max_int_digits <? len)%nat then None
      else Some [TNum (Int v)]
  | LFrac m scale => Some [TNum (Float (float_of_decimal m scale))]
  | LName x => Some [TName x]
  | LStar => Some [TOp Star]
  | LSlash => Some [TOp Slash]
  | LDot => Some [TDot]
  end.

Definition start (c : ascii) : option (list token * lex_state) :=
  if is_ascii_digit c then Some ([], LInt (digit_value c) 1 (Ascii.eqb c "0"))
  else if is_name_start c then Some ([], LName (String c EmptyString))
  else if Ascii.eqb c "." then Some ([], LDot)
  else if Ascii.eqb c "*" then Some ([], LStar)
  else if Ascii.eqb c "/" then Some ([], LSlash)
  else if Ascii.eqb c "+" then Some ([TOp Plus], LStart)
  else if Ascii.eqb c "-" then Some ([TOp Minus], LStart)
  else if Ascii.eqb c "(" then Some ([TLParen], LStart)
  else if Ascii.eqb c ")" then Some ([TRParen], LStart)
  else None.

Definition step (st : lex_state) (c : ascii) : option (list token * lex_state) :=
  let restart :=
    match flush st, start c with
    | Some out, Some (out', st') => Some ((out ++ out')%list, st')
    | _, _ => None
    end in
  match st with
  | LStart => start c
  | LInt v len zero_first =>
      if is_ascii_digit c then Some ([], LInt (10 * v + digit_value c) (S len) zero_first)
      else if Ascii.eqb c "." then Some ([], LFrac v 0)
      else restart
  | LFrac m scale =>
      if is_ascii_digit c then Some ([], LFrac (10 * m + digit_value c) (S scale))
      else restart
  | LName x =>
      if is_name_char c then Some ([], LName (x ++ String c EmptyString))
      else restart
  | LStar => if Ascii.eqb c "*" then Some ([TOp DoubleStar], LStart) else restart
  | LSlash => if Ascii.eqb c "/" then Some ([TOp DoubleSlash], LStart) else restart
  | LDot =>
      if is_ascii_digit c then Some ([], LFrac (digit_value c) 1)
      else if Ascii.eqb c "." then None
      else restart
  end.

Fixpoint lex (st : lex_state) (s : string) : option (list token) :=
  match s with
  | EmptyString => flush st
  | String c s' =>
      match step st c with
      | Some (out, st') =>
          match lex st' s' with
          | Some rest => Some (out ++ rest)%list
          | None => None
          end
      | None => None
      end
  end.

Definition tokenize (s : string) : option (list token) := lex LStart s.

Inductive binop : Set := Add | Sub | Mul | Div | Pow.

Inductive expr : Set :=
| ENum (n : number)
| EName (x : string)
| EAttr (e : expr) (attr : string)
| ECall (f : expr) (arg : expr)
| ENeg (e : expr)
| EPos (e : expr)
| EBin (o : binop) (l r : expr).

(** Names that are not plain identifiers: the keywords, and [__debug__],
    which the compiler replaces by a constant. *)
Definition keywords : list string :=
  ["False"; "None"; "True"; "and"; "as"; "assert"; "async"; "await"; "break";
   "class"; "continue"; "def"; "del"; "elif"; "else"; "except"; "finally";
   "for"; "from"; "global"; "if"; "import"; "in"; "is"; "lambda"; "nonlocal";
   "not"; "or"; "pass"; "raise"; "return"; "try"; "while"; "with"; "yield";
   "__debug__"].

Definition is_keyword (x : string) : bool := existsb (String.eqb x) keywords.

(** Recursive descent along Python's grammar:
    sum: term (('+'|'-') term)*;  term: factor (('*'|'/') factor)*;
    factor: ('+'|'-') factor | power;  power: primary ['**' factor];
    primary: atom ('.' NAME | '(' sum ')')*;  atom: NUMBER | NAME | '(' sum ')'.
    Every call spends one unit of [fuel]. *)
Fixpoint parse_sum (fuel : nat) (ts : list token) : option (expr * list token) :=
  match fuel with
  | O => None
  | S n =>
      match parse_term n ts with
      | Some (e, r) => parse_sum_rest n e r
      | None => None
      end
  end
with parse_sum_rest (fuel : nat) (e : expr) (ts : list token) : option (expr * list token) :=
  match fuel with
  | O => None
  | S n =>
      match ts with
      | TOp Plus :: r =>
          match parse_term n r with
          | Some (e2, r') => parse_sum_rest n (EBin Add e e2) r'
          | None => None
          end
      | TOp Minus :: r =>
          match parse_term n r with
          | Some (e2, r') => parse_sum_rest n (EBin Sub e e2) r'
          | None => None
          end
      | _ => Some (e, ts)
      end
  end
with parse_term (fuel : nat) (ts : list token) : option (expr * list token) :=
  match fuel with
  | O => None
  | S n =>
      match parse_factor n ts with
      | Some (e, r) => parse_term_rest n e r
      | None => None
      end
  end
with parse_term_rest (fuel : nat) (e : expr) (ts : list token) : option (expr * list token) :=
  match fuel with
  | O => None
  | S n =>
      match ts with
      | TOp Star :: r =>
          match parse_factor n r with
          | Some (e2, r') => parse_term_rest n (EBin Mul e e2) r'
          | None => None
          end
      | TOp Slash :: r =>
          match parse_factor n r with
          | Some (e2, r') => parse_term_rest n (EBin Div e e2) r'
          | None => None
          end
      | _ => Some (e, ts)
      end
  end
with parse_factor (fuel : nat) (ts : list token) : option (expr * list token) :=
  match fuel with
  | O => None
  | S n =>
      match ts with
      | TOp Plus :: r =>
          match parse_factor n r with
          | Some (e, r') => Some (EPos e, r')
          | None => None
          end
      | TOp Minus :: r =>
          match parse_factor n r with
          | Some (e, r') => Some (ENeg e, r')
          | None => None
          end
      | _ => parse_power n ts
      end
  end
with parse_power (fuel : nat) (ts : list token) : option (expr * list token) :=
  match fuel with
  | O => None
  | S n =>
      match parse_primary n ts with
      | Some (e, TOp DoubleStar :: r) =>
          match parse_factor n r with
          | Some (e2, r') => Some (EBin Pow e e2, r')
          | None => None
          end
      | other => other
      end
  end
with parse_primary (fuel : nat) (ts : list token) : option (expr * list token) :=
  match fuel with
  | O => None
  | S n =>
      match parse_atom n ts with
      | Some (e, r) => parse_trailers n e r
      | None => None
      end
  end
with parse_trailers (fuel : nat) (e : expr) (ts : list token) : option (expr * list token) :=
  match fuel with
  | O => None
  | S n =>
      match ts with
      | TDot :: TName a :: r =>
          if is_keyword a then None else parse_trailers n (EAttr e a) r
      | TLParen :: r =>
          match parse_sum n r with
          | Some (arg, TRParen :: r') => parse_trailers n (ECall e arg) r'
          | _ => None
          end
      | _ => Some (e, ts)
      end
  end
with parse_atom (fuel : nat) (ts : list token) : option (expr * list token) :=
  match fuel with
  | O => None
  | S n =>
      match ts with
      | TNum v :: r => Some (ENum v, r)
      | TName x :: r => if is_keyword x then None else Some (EName x, r)
      | TLParen :: r =>
          match parse_sum n r with
          | Some (e, TRParen :: r') => Some (e, r')
          | _ => None
          end
      | _ => None
      end
  end.

(** Longer expressions may hit the interpreter's nesting and recursion
    limits; they are left outside the fragment. *)
Definition max_tokens : nat := 100.

Definition parse (ts : list token) : option expr :=
  if (max_tokens <? List.length ts)%nat then None
  else
    match parse_sum (8 * List.length ts + 8) ts with
    | Some (e, []) => Some e
    | _ => None
    end.

(** ** The host interpreter *)

(** Two services of the interpreter are not computed by this development and
    are left abstract.  [float_pow x y] is [x ** y] on two floats: the C
    library's [pow] as [float.__pow__] wraps it (it may raise, and yields a
    complex number for a negative base with a fractional exponent).
    [eval_other s] is what [eval(s, safe_dict)] does on a source text outside
    the fragment of Python expressions interpreted by [py_eval] below. *)
Record host : Type := {
  float_pow : float -> float -> result value;
  eval_other : string -> result value
}.

(** ** The arithmetic primitives *)

Section Calculator.

Variable H : host.

(** [a ** b]: exact for an [int] raised to a non-negative [int], the
    floating-point power otherwise. *)
Definition py_pow (a b : number) : result value :=
  match a, b with
  | Int x, Int y =>
      if (0 <=? y)%Z then Return (Num (Int (x ^ y)))
      else
        fx <- int_to_float x ;;
        fy <- int_to_float y ;;
        float_pow H fx fy
  | _, _ =>
      fx <- as_float a ;;
      fy <- as_float b ;;
      float_pow H fx fy
  end.

Definition add (a b : number) : result number := py_add a b.

Definition subtract (a b : number) : result number := py_sub a b.

Definition multiply (a b : number) : result number := py_mul a b.

Definition divide (a b : number) : result number :=
  if py_eq b (Int 0) then raise CalculatorError "Division by zero is not allowed"
  else py_truediv a b.

Definition power (base exponent : number) : result value :=
  let body :=
    result <- py_pow base exponent ;;
    inf <- math_isinf result ;;
    if inf then raise CalculatorError "Result is infinity"
    else
      isnan <- math_isnan result ;;
      if isnan then raise CalculatorError "Invalid operation resulting in NaN"
      else Return result in
  match body with
  | Return v => Return v
  | Raise e =>
      if issubclass (exn_cls e) OverflowError
      then raise CalculatorError "Number too large to represent"
      else Raise e
  end.

Definition square_root (n : number) : result number :=
  if py_lt n (Int 0)
  then raise CalculatorError "Cannot calculate square root of negative number"
  else math_sqrt (Num n).

Definition modulus (a b : number) : result number :=
  if py_eq b (Int 0) then raise CalculatorError "Modulus by zero is not allowed"
  else py_mod a b.



(** ** Evaluation of the fragment *)

(** The namespace [eval] runs in: no builtins, [math] and [abs]. *)
Definition safe_dict : list (string * value) :=
  [("__builtins__", Obj "dict"); ("math", Module "math"); ("abs", Fn Abs)].

Fixpoint lookup (x : string) (d : list (string * value)) : option value :=
  match d with
  | [] => None
  | (k, v) :: d' => if String.eqb x k then Some v else lookup x d'
  end.

(** [v.attr]; of the attributes of [math] only [sqrt] is interpreted. *)
Definition getattr (v : value) (attr : string) : option (result value) :=
  match v with
  | Module "math" => if String.eqb attr "sqrt" then Some (Return (Fn MathSqrt)) else None
  | _ => None
  end.

(** [f(arg)] *)
Definition call (f arg : value) : option (result value) :=
  match f, arg with
  | Obj _, _ | _, Obj _ => None
  | Fn Abs, Num n => Some (Return (Num (py_abs n)))
  | Fn Abs, _ =>
      Some (raise TypeError ("bad operand type for abs(): '" ++ type_name_of arg ++ "'"))
  | Fn MathSqrt, _ => Some (n <- math_sqrt arg ;; Return (Num n))
  | _, _ => Some (raise TypeError ("'" ++ type_name_of f ++ "' object is not callable"))
  end.

Definition unary (minus : bool) (v : value) : option (result value) :=
  match v with
  | Num n => Some (Return (Num (if minus then py_neg n else n)))
  | Obj _ => None
  | _ =>
      Some (raise TypeError
              ("bad operand type for unary " ++ (if minus then "-" else "+")
                 ++ ": '" ++ type_name_of v ++ "'"))
  end.

Definition symbol (o : binop) : string :=
  match o with
  | Add => "+" | Sub => "-" | Mul => "*" | Div => "/" | Pow => "** or pow()"
  end.

Definition binary (o : binop) (a b : value) : option (result value) :=
  match a, b with
  | Num x, Num y =>
      Some match o with
           | Add => n <- py_add x y ;; Return (Num n)
           | Sub => n <- py_sub x y ;; Return (Num n)
           | Mul => n <- py_mul x y ;; Return (Num n)
           | Div => n <- py_truediv x y ;; Return (Num n)
           | Pow => py_pow x y
           end
  | Obj _, _ | _, Obj _ => None
  | _, _ =>
      Some (raise TypeError
              ("unsupported operand type(s) for " ++ symbol o ++ ": '"
                 ++ type_name_of a ++ "' and '" ++ type_name_of b ++ "'"))
  end.

(** Operands are evaluated from left to right, a callee before its
    argument; the first exception raised ends the evaluation. *)
Fixpoint eval_expr (e : expr) : option (result value) :=
  match e with
  | ENum n => Some (Return (Num n))
  | EName x =>
      match lookup x safe_dict with
      | Some v => Some (Return v)
      | None => Some (raise NameError ("name '" ++ x ++ "' is not defined"))
      end
  | EAttr e1 attr =>
      match eval_expr e1 with
      | Some (Return v) => getattr v attr
      | other => other
      end
  | ECall f arg =>
      match eval_expr f with
      | Some (Return vf) =>
          match eval_expr arg with
          | Some (Return va) => call vf va
          | other => other
          end
      | other => other
      end
  | ENeg e1 =>
      match eval_expr e1 with
      | Some (Return v) => unary true v
      | other => other
      end
  | EPos e1 =>
      match eval_expr e1 with
      | Some (Return v) => unary false v
      | other => other
      end
  | EBin o l r =>
      match eval_expr l with
      | Some (Return vl) =>
          match eval_expr r with
          | Some (Return vr) => binary o vl vr
          | other => other
          end
      | other => other
      end
  end.

(** [eval(source, safe_dict)] on the fragment. *)
Definition py_eval (source : string) : option (result value) :=
  match tokenize source with
  | Some ts =>
      match parse ts with
      | Some e => eval_expr e
      | None => None
      end
  | None => None
  end.

(** [eval(source, safe_dict)] *)
Definition eval (source : string) : result value :=
  match py_eval source with
  | Some r => r
  | None => eval_other H source
  end.

(** ** The expression evaluator *)

Definition allowed_chars : string :=
  "0123456789+-*/().**sqrt()log()sin()cos()tan()abs().".

(** The test applied to every character [c] of the expression. *)
Definition allowed (c : ascii) : bool :=
  char_in c allowed_chars || isdigit c || char_in c "+-*/()".

(** The six replacements that build [safe_expression]. *)
Definition safe_expression (expression : string) : string :=
  let safe_expression := str_replace expression "sqrt" "math.sqrt" in
  let safe_expression := str_replace safe_expression "log" "math.log" in
  let safe_expression := str_replace safe_expression "sin" "math.sin" in
  let safe_expression := str_replace safe_expression "cos" "math.cos" in
  let safe_expression := str_replace safe_expression "tan" "math.tan" in
  str_replace safe_expression "abs" "abs".

(** The [except] clauses of [evaluate_expression], tried in order; an
    exception that matches none of them propagates. *)
Definition handler (e : exn) : result value :=
  if issubclass (exn_cls e) ZeroDivisionError then
    raise CalculatorError "Division by zero in expression"
  else if issubclass (exn_cls e) ValueError || issubclass (exn_cls e) TypeError
          || issubclass (exn_cls e) SyntaxError then
    raise CalculatorError ("Invalid expression: " ++ exn_msg e)
  else if issubclass (exn_cls e) Exception then
    raise CalculatorError ("Error evaluating expression: " ++ exn_msg e)
  else Raise e.

(** The argument is a [str]; [not expression] then holds for the empty
    string only, and the [isinstance] test passes. *)
Definition evaluate_expression (expression : string) : result value :=
  if String.eqb expression "" then raise CalculatorError "Invalid expression"
  else
    let expression := str_replace expression " " "" in
    if negb (str_all allowed expression)
    then raise CalculatorError "Expression contains invalid characters"
    else if negb (str_count expression "(" =? str_count expression ")")%nat
    then raise CalculatorError "Unbalanced parentheses"
    else
      let body :=
        result <- eval (safe_expression expression) ;;
        inf <- math_isinf result ;;
        if inf then raise CalculatorError "Result is infinity"
        else
          isnan <- math_isnan result ;;
          if isnan then raise CalculatorError "Invalid operation resulting in NaN"
          else
            f <- py_float result ;;
            Return (Num (Float f)) in
      match body with
      | Return v => Return v
      | Raise e => handler e
      end.

End Calculator.

(** ** Auxiliary notions used in the statements *)

(** The interpreter raises instances of [Exception] only: evaluating an
    expression cannot raise [KeyboardInterrupt] or [SystemExit]. *)
Definition raises_Exception {A : Type} (r : result A) : Prop :=
  forall e, r = Raise e -> issubclass (exn_cls e) Exception = true.

Definition host_ok (H : host) : Prop :=
  (forall x y, raises_Exception (float_pow H x y)) /\
  (forall source, raises_Exception (eval_other H source)).

(** The same, for an outcome of the fragment's evaluator. *)
Definition fragment_raises (o : option (result value)) : Prop :=
  forall r, o = Some r -> raises_Exception r.

(** A host that supports nothing beyond the fragment: it reports a range
    error for every floating-point power and a syntax error for every other
    expression. *)
Definition sample_host : host :=
  {| float_pow := fun _ _ => raise OverflowError "(34, 'Numerical result out of range')";
     eval_other := fun _ => raise SyntaxError "invalid syntax (<string>, line 1)" |}.

Definition tab : ascii := ascii_of_nat 9.
Definition newline : ascii := ascii_of_nat 10.
Definition space : ascii := ascii_of_nat 32.

(** The expression with its spaces dropped and every other character kept
    in place. *)
Fixpoint without_spaces (s : string) : string :=
  match s with
  | EmptyString => EmptyString
  | String c s' => if Ascii.eqb c space then without_spaces s' else String c (without_spaces s')
  end.

(** [x == y] is false exactly for a NaN compared with itself. *)
Definition is_nan_number (n : number) : bool :=
  match n with
  | Int _ => false
  | Float f => is_nan f
  end.

(** ** The HTTP layer (app/main.py) *)

(** The endpoint functions are modelled as they are written: each takes the
    fields of its request, and reads and updates the module's global
    [calculation_history], which is passed in and out explicitly.  The time
    read from the clock by [add_to_history] is an argument, [now].  Routing,
    request validation and the encoding of the answer belong to the web
    framework and are not modelled. *)

(** A value of the [input] dictionary of an answer. *)
Inductive field : Set :=
| FNum (x : float)
| FStr (s : string).

Record OperationResponse : Set := {
  operation : string;
  input : list (string * field);
  result_value : float;     (* the field [result] *)
  timestamp : string
}.

(** What a call of an endpoint function yields: its return value, an
    [HTTPException], or an exception that none of its clauses catches. *)
Inductive reply (A : Type) : Type :=
| Answer (a : A)
| HTTPException (status_code : nat) (detail : string)
| Uncaught (e : exn).
Arguments Answer {A} a.
Arguments HTTPException {A} status_code detail.
Arguments Uncaught {A} e.

Definition add_to_history (operation : string) (input_data : list (string * field))
    (result : float) (now : string) (calculation_history : list OperationResponse)
  : OperationResponse * list OperationResponse :=
  let response :=
    {| operation := operation; input := input_data; result_value := result;
       timestamp := now |} in
  (response, (calculation_history ++ [response])%list).

(** [except Exception as e: raise HTTPException(status_code=400, ...)] *)
Definition except_400 {A : Type} (e : exn) : reply A :=
  if issubclass (exn_cls e) Exception then HTTPException 400 (exn_msg e)
  else Uncaught e.

(** [except CalculatorError as e: raise HTTPException(status_code=400, ...)]
    followed by [except Exception as e: raise HTTPException(status_code=500, ...)] *)
Definition except_400_500 {A : Type} (e : exn) : reply A :=
  if issubclass (exn_cls e) CalculatorError then HTTPException 400 (exn_msg e)
  else if issubclass (exn_cls e) Exception then HTTPException 500 (exn_msg e)
  else Uncaught e.

(** [f"{count}"] *)
Definition str_of_nat (count : nat) : string :=
  NilEmpty.string_of_uint (Nat.to_uint count).

Section App.

Variable H : host.

(** The validation of the field [result: float] by the model class: a float
    is kept as it is; what it does with any other object (it converts an
    [int] and refuses the rest) is left abstract. *)
Variable validate_result : value -> result float.

Definition result_field (v : value) : result float :=
  match v with
  | Num (Float f) => Return f
  | _ => validate_result v
  end.

(** The body of the [try] block shared by the operation endpoints: the
    computed result is stored by [add_to_history] and the new entry is
    returned; an exception leaves the history as it was and goes to the
    handler. *)
Definition try_operation (operation : string) (input_data : list (string * field))
    (computed : result value) (on_error : exn -> reply OperationResponse)
    (now : string) (calculation_history : list OperationResponse)
  : reply OperationResponse * list OperationResponse :=
  match (v <- computed ;; result_field v) with
  | Return result =>
      let '(response, calculation_history) :=
        add_to_history operation input_data result now calculation_history in
      (Answer response, calculation_history)
  | Raise e => (on_error e, calculation_history)
  end.

Definition number_result (r : result number) : result value :=
  n <- r ;; Return (Num n).

Definition add_numbers (a b : float) :=
  try_operation "addition" [("a", FNum a); ("b", FNum b)]
    (number_result (add (Float a) (Float b))) except_400.

Definition subtract_numbers (a b : float) :=
  try_operation "subtraction" [("a", FNum a); ("b", FNum b)]
    (number_result (subtract (Float a) (Float b))) except_400.

Definition multiply_numbers (a b : float) :=
  try_operation "multiplication" [("a", FNum a); ("b", FNum b)]
    (number_result (multiply (Float a) (Float b))) except_400.

Definition divide_numbers (a b : float) :=
  try_operation "division" [("a", FNum a); ("b", FNum b)]
    (number_result (divide (Float a) (Float b))) except_400_500.

Definition power_operation (base exponent : float) :=
  try_operation "power" [("base", FNum base); ("exponent", FNum exponent)]
    (power H (Float base) (Float exponent)) except_400_500.

Definition square_root_operation (value : float) :=
  try_operation "square_root" [("value", FNum value)]
    (number_result (square_root (Float value))) except_400_500.

Definition modulus_operation (a b : float) :=
  try_operation "modulus" [("a", FNum a); ("b", FNum b)]
    (number_result (modulus (Float a) (Float b))) except_400_500.

Definition evaluate_math_expression (expression : string) :=
  try_operation "evaluate" [("expression", FStr expression)]
    (evaluate_expression H expression) except_400_500.

Definition get_history (calculation_history : list OperationResponse)
  : list OperationResponse * list OperationResponse :=
  (calculation_history, calculation_history).

Definition clear_history (calculation_history : list OperationResponse)
  : string * list OperationResponse :=
  let count := List.length calculation_history in
  ("History cleared. Removed " ++ str_of_nat count ++ " entries.", []).

(** The requests served by the routes of the application ([GET /] apart,
    which returns a constant). *)
Inductive request : Set :=
| PostAdd (a b : float)
| PostSubtract (a b : float)
| PostMultiply (a b : float)
| PostDivide (a b : float)
| PostPower (base exponent : float)
| PostSqrt (value : float)
| PostModulus (a b : float)
| PostEvaluate (expression : string)
| GetHistory
| DeleteHistory.

Inductive response : Type :=
| Operation (r : reply OperationResponse)    (* the POST routes *)
| History (entries : list OperationResponse) (* GET /history *)
| Cleared (message : string).                (* DELETE /history *)

(** The route table: one request, served at time [now]. *)
Definition serve (req : request) (now : string)
    (calculation_history : list OperationResponse)
  : response * list OperationResponse :=
  let post (r : reply OperationResponse * list OperationResponse) :=
    (Operation (fst r), snd r) in
  match req with
  | PostAdd a b => post (add_numbers a b now calculation_history)
  | PostSubtract a b => post (subtract_numbers a b now calculation_history)
  | PostMultiply a b => post (multiply_numbers a b now calculation_history)
  | PostDivide a b => post (divide_numbers a b now calculation_history)
  | PostPower base exponent => post (power_operation base exponent now calculation_history)
  | PostSqrt value => post (square_root_operation value now calculation_history)
  | PostModulus a b => post (modulus_operation a b now calculation_history)
  | PostEvaluate expression =>
      post (evaluate_math_expression expression now calculation_history)
  | GetHistory =>
      let '(entries, h) := get_history calculation_history in (History entries, h)
  | DeleteHistory =>
      let '(message, h) := clear_history calculation_history in (Cleared message, h)
  end.

(** A sequence of requests, each with the time it is served at; the
    responses are returned in order, with the final history. *)
Fixpoint serve_all (reqs : list (request * string))
    (calculation_history : list OperationResponse)
  : list response * list OperationResponse :=
  match reqs with
  | [] => ([], calculation_history)
  | (req, now) :: reqs' =>
      let '(r, h) := serve req now calculation_history in
      let '(rs, h') := serve_all reqs' h in
      (r :: rs, h')
  end.

End App.

(** The entries answered by the POST routes, in order. *)
Fixpoint answered (rs : list response) : list OperationResponse :=
  match rs with
  | [] => []
  | Operation (Answer r) :: rs' => r :: answered rs'
  | _ :: rs' => answered rs'
  end.

Definition is_delete (req : request) : bool :=
  match req with
  | DeleteHistory => true
  | _ => false
  end.

(** A validation of results that refuses everything but a float. *)
Definition sample_validate (v : value) : result float :=
  raise ValueError "Input should be a valid number".

(** An ASCII letter. *)
Definition is_letter (c : ascii) : bool :=
  let n := nat_of_ascii c in
  ((97 <=? n) && (n <=? 122) || (65 <=? n) && (n <=? 90))%nat.

(** The name under which each POST request is recorded. *)
Definition operation_name (req : request) : string :=
  match req with
  | PostAdd _ _ => "addition"
  | PostSubtract _ _ => "subtraction"
  | PostMultiply _ _ => "multiplication"
  | PostDivide _ _ => "division"
  | PostPower _ _ => "power"
  | PostSqrt _ => "square_root"
  | PostModulus _ _ => "modulus"
  | PostEvaluate _ => "evaluate"
  | GetHistory | DeleteHistory => ""
  end.

(** The entry recorded for an operation, and the outcome of an endpoint that
    records it. *)
Definition entry (name : string) (input_data : list (string * field)) (r : float)
    (now : string) : OperationResponse :=
  {| operation := name; input := input_data; result_value := r; timestamp := now |}.

Definition recorded (e : OperationResponse) (h : list OperationResponse)
  : reply OperationResponse * list OperationResponse :=
  (Answer e, (h ++ [e])%list).

(** A host whose floating-point power fails on a zero base, as Python's does
    for a negative exponent. *)
Definition zero_power_host : host :=
  {| float_pow := fun _ _ =>
       raise ZeroDivisionError "0.0 cannot be raised to a negative power";
     eval_other := fun _ => raise SyntaxError "invalid syntax (<string>, line 1)" |}.

(** [x] is a zero, a finite number or an infinity with sign bit [s] ([true]
    for negative); NaN has none. *)
(** [isinstance(n, float)] *)
Definition is_float (n : number) : bool :=
  match n with
  | Float _ => true
  | Int _ => false
  end.

Definition has_sign (x : spec_float) (s : bool) : Prop :=
  match x with
  | S754_zero s' | S754_infinity s' | S754_finite s' _ _ => s' = s
  | S754_nan => False
  end.

(** * Properties *)

Ltac compare_with_zero e :=
  pose proof (Z.pow_pos_nonneg 2 e);
  match goal with
  | |- context [(?a ?= ?b)%Z] => destruct (Z.compare_spec a b)
  end; try reflexivity; exfalso; nia.

(** ** Strings *)

Lemma str_all_false p c s : char_in c s = true -> p c = false -> str_all p s = false.
Proof.
  induction s as [|d s IH]; simpl; [discriminate|].
  intros Hin Hp. apply orb_true_iff in Hin as [Heq|Hin].
  - apply Ascii.eqb_eq in Heq. subst d. now rewrite Hp.
  - rewrite IH by assumption. apply andb_false_r.
Qed.

Lemma prefix_empty s : prefix "" s = true.
Proof. now destruct s. Qed.

Lemma replace_space s : str_replace s " " "" = without_spaces s.
Proof.
  unfold str_replace.
  induction s as [|c s IH]; [reflexivity|].
  cbn [replace_from without_spaces prefix length Nat.sub].
  destruct (ascii_dec " " c) as [<-|Hne].
  - rewrite prefix_empty. cbn. exact IH.
  - destruct (Ascii.eqb c space) eqn:E.
    + apply Ascii.eqb_eq in E. subst c. now elim Hne.
    + now rewrite IH.
Qed.

Lemma char_in_without_spaces c s :
  c <> space -> char_in c (without_spaces s) = char_in c s.
Proof.
  intros Hc. induction s as [|d s IH]; [reflexivity|].
  cbn [without_spaces char_in].
  destruct (Ascii.eqb d space) eqn:E.
  - apply Ascii.eqb_eq in E. subst d.
    rewrite IH. destruct (Ascii.eqb c space) eqn:E'; [|reflexivity].
    apply Ascii.eqb_eq in E'. contradiction.
  - cbn [char_in]. now rewrite IH.
Qed.

Lemma count_char_without_spaces c s :
  c <> space ->
  count_from (String c "") 0 (without_spaces s) = count_from (String c "") 0 s.
Proof.
  intros Hc. induction s as [|d s IH]; [reflexivity|].
  cbn [without_spaces].
  destruct (Ascii.eqb d space) eqn:E.
  - apply Ascii.eqb_eq in E. subst d.
    cbn [count_from prefix length Nat.sub].
    destruct (ascii_dec c space) as [->|_]; [contradiction|]. exact IH.
  - cbn [count_from prefix length Nat.sub].
    destruct (ascii_dec c d); rewrite ?prefix_empty; now rewrite IH.
Qed.

(** ** The validation steps of [evaluate_expression] *)

(** An expression that holds a character failing the test, other than the
    space, is rejected at the character check. *)
Lemma invalid_character_rejected (H : host) (c : ascii) (expression : string) :
  c <> space -> allowed c = false -> char_in c expression = true ->
  evaluate_expression H expression =
  raise CalculatorError "Expression contains invalid characters".
Proof.
  intros Hc Hbad Hin. unfold evaluate_expression.
  destruct (String.eqb_spec expression "") as [->|_]; [discriminate|].
  rewrite replace_space.
  rewrite (str_all_false allowed c); [reflexivity| |assumption].
  now rewrite char_in_without_spaces.
Qed.

(** C6: an expression that is not empty and whose characters, spaces apart,
    all pass the character test, is rejected with "Unbalanced parentheses"
    when it holds a different number of opening and closing parentheses. *)
Theorem unbalanced_parentheses_rejected (H : host) (expression : string) :
  expression <> "" ->
  str_all allowed (str_replace expression " " "") = true ->
  str_count expression "(" <> str_count expression ")" ->
  evaluate_expression H expression = raise CalculatorError "Unbalanced parentheses".
Proof.
  intros Hne Hall Hcount. unfold evaluate_expression.
  destruct (String.eqb_spec expression "") as [->|_]; [contradiction|].
  rewrite Hall. cbn [negb].
  unfold str_count in *. rewrite replace_space.
  rewrite !count_char_without_spaces by discriminate.
  apply Nat.eqb_neq in Hcount. now rewrite Hcount.
Qed.

(** The expression "(2 + 3" meets the hypotheses of C6. *)
Lemma unbalanced_parentheses_example :
  evaluate_expression sample_host "(2 + 3" =
  raise CalculatorError "Unbalanced parentheses".
Proof.
  apply (unbalanced_parentheses_rejected sample_host "(2 + 3");
    [discriminate | vm_compute; reflexivity | vm_compute; discriminate].
Defined.

(** C10: only the space is stripped (the other characters stay in place),
    and an expression holding a tab or a newline is rejected with
    "Expression contains invalid characters". *)
Theorem tab_or_newline_rejected :
  (forall s, str_replace s " " "" = without_spaces s) /\
  (forall (H : host) (expression : string),
      char_in tab expression = true \/ char_in newline expression = true ->
      evaluate_expression H expression =
      raise CalculatorError "Expression contains invalid characters").
Proof.
  split; [exact replace_space|].
  intros H expression [Hin|Hin].
  - now apply (invalid_character_rejected H tab).
  - now apply (invalid_character_rejected H newline).
Qed.

Lemma tab_rejected_example :
  evaluate_expression sample_host (String "2" (String tab "3")) =
  raise CalculatorError "Expression contains invalid characters".
Proof.
  apply (proj2 tab_or_newline_rejected sample_host). left. vm_compute. reflexivity.
Defined.

(** C2, as stated, fails: the character [^] is outside the allow-list, so
    "2^3" is rejected before any evaluation, whatever the interpreter. *)
Lemma caret_power_rejected :
  allowed "^" = false /\
  (forall H : host,
      evaluate_expression H "2^3" =
      raise CalculatorError "Expression contains invalid characters").
Proof.
  split; [reflexivity|]. intros H. vm_compute. reflexivity.
Qed.

(** C2, amended: exponentiation is written [**] only and associates to the
    right ("2**3" is 8 and "2**3**2" is 2**9); every expression holding a
    [^] is rejected with "Expression contains invalid characters". *)
Theorem power_is_double_star_only :
  (forall H : host, evaluate_expression H "2**3" = Return (Num (Float 8))) /\
  (forall H : host, evaluate_expression H "2**3**2" = Return (Num (Float 512))) /\
  (forall (H : host) (expression : string),
      char_in "^" expression = true ->
      evaluate_expression H expression =
      raise CalculatorError "Expression contains invalid characters").
Proof.
  split; [|split].
  - intros H. vm_compute. reflexivity.
  - intros H. vm_compute. reflexivity.
  - intros H expression Hin.
    now apply (invalid_character_rejected H "^").
Qed.

Lemma caret_rejected_example :
  evaluate_expression sample_host "(2^3)+1" =
  raise CalculatorError "Expression contains invalid characters".
Proof.
  apply (proj2 (proj2 power_is_double_star_only) sample_host). vm_compute. reflexivity.
Defined.

(** C4: the letter [s] occurs in the function name "sqrt" and passes the
    character test; the expression "s" names no function (no replacement
    applies), is not rejected at the character check, and fails only when
    it is evaluated, as an unknown name. *)
Theorem lone_letter_passes_character_check :
  char_in "s" "sqrt" = true /\
  allowed "s" = true /\
  safe_expression "s" = "s" /\
  (forall H : host,
      evaluate_expression H "s" =
      raise CalculatorError "Error evaluating expression: name 's' is not defined").
Proof.
  repeat (apply conj); try intros H; vm_compute; reflexivity.
Qed.

(** C5: "2 + 3" is 5, "(2 + 3) * 4" is 20 and "sqrt(16)" is 4 (as floats,
    equal to these integers); the replacement turns "sqrt(16)" into
    "math.sqrt(16)", argument and parentheses untouched, which evaluates to
    the square root of 16. *)
Theorem evaluate_expression_examples :
  (forall H : host, evaluate_expression H "2 + 3" = Return (Num (Float 5))) /\
  (forall H : host, evaluate_expression H "(2 + 3) * 4" = Return (Num (Float 20))) /\
  (forall H : host, evaluate_expression H "sqrt(16)" = Return (Num (Float 4))) /\
  safe_expression "sqrt(16)" = "math.sqrt(16)" /\
  (forall H : host, eval H "math.sqrt(16)" = Return (Num (Float 4))) /\
  py_eq (Float 5) (Int 5) = true /\
  py_eq (Float 20) (Int 20) = true /\
  py_eq (Float 4) (Int 4) = true.
Proof.
  repeat (apply conj); try (intros H); vm_compute; reflexivity.
Qed.

(** C1, on the code: "10**308*10.0" evaluates to an infinite float and
    "10**308*10.0-10**308*10.0" to NaN; the errors raised for them inside the
    [try] block are caught by its last [except] clause, and the caller sees
    the messages with the prefix "Error evaluating expression: ". *)
Theorem infinite_and_nan_results_are_rewrapped :
  (forall H : host, eval H "10**308*10.0" = Return (Num (Float infinity))) /\
  (forall H : host,
      evaluate_expression H "10**308*10.0" =
      raise CalculatorError "Error evaluating expression: Result is infinity") /\
  (forall H : host, eval H "10**308*10.0-10**308*10.0" = Return (Num (Float nan))) /\
  (forall H : host,
      evaluate_expression H "10**308*10.0-10**308*10.0" =
      raise CalculatorError
        "Error evaluating expression: Invalid operation resulting in NaN").
Proof.
  repeat (apply conj); intros H; vm_compute; reflexivity.
Qed.

(** ** Comparison with the literal [0] *)

Lemma Prim2SF_zero : Prim2SF zero = S754_zero false.
Proof. reflexivity. Qed.

(** On a float, [n < 0] and [n == 0] are the IEEE comparisons with zero. *)
Lemma py_lt_zero_float (f : float) : py_lt (Float f) (Int 0) = (f <? zero)%float.
Proof.
  cbn [py_lt]. unfold compare_float_Z.
  rewrite ltb_spec, Prim2SF_zero. unfold SFltb.
  destruct (Prim2SF f) as [s|s| |s m e]; cbn [SFcompare];
    try reflexivity; try now destruct s.
  destruct s; cbn [cond_Zopp]; destruct (0 <=? e)%Z eqn:E;
    try reflexivity; apply Z.leb_le in E; compare_with_zero e.
Qed.

Lemma py_eq_zero_float (f : float) : py_eq (Float f) (Int 0) = (f =? zero)%float.
Proof.
  cbn [py_eq]. unfold compare_float_Z.
  rewrite eqb_spec, Prim2SF_zero. unfold SFeqb.
  destruct (Prim2SF f) as [s|s| |s m e]; cbn [SFcompare];
    try reflexivity; try now destruct s.
  destruct s; cbn [cond_Zopp]; destruct (0 <=? e)%Z eqn:E;
    try reflexivity; apply Z.leb_le in E; compare_with_zero e.
Qed.

(** ** The primitives *)

(** C7: [square_root(n)] raises "Cannot calculate square root of negative
    number" whenever [n < 0] holds, for an [int] and for a float alike; and
    [square_root(power(5, 2))] is 5: the power is the [int] 25, whose root
    is the float 5.0, equal to 5. *)
Theorem square_root_negative_and_round_trip :
  (forall n : number,
      py_lt n (Int 0) = true ->
      square_root n =
      raise CalculatorError "Cannot calculate square root of negative number") /\
  (forall z : Z,
      (z < 0)%Z ->
      square_root (Int z) =
      raise CalculatorError "Cannot calculate square root of negative number") /\
  (forall f : float,
      (f <? zero)%float = true ->
      square_root (Float f) =
      raise CalculatorError "Cannot calculate square root of negative number") /\
  (forall H : host, power H (Int 5) (Int 2) = Return (Num (Int 25))) /\
  square_root (Int 25) = Return (Float 5) /\
  py_eq (Float 5) (Int 5) = true.
Proof.
  assert (Hneg : forall n : number,
             py_lt n (Int 0) = true ->
             square_root n =
             raise CalculatorError "Cannot calculate square root of negative number").
  { intros n Hn. unfold square_root. now rewrite Hn. }
  split; [exact Hneg|]. split; [|split].
  - intros z Hz. apply Hneg. cbn [py_lt]. now apply Z.ltb_lt.
  - intros f Hf. apply Hneg. now rewrite py_lt_zero_float.
  - repeat (apply conj); try intros H; vm_compute; reflexivity.
Qed.

Lemma square_root_minus_one :
  square_root (Int (-1)) =
  raise CalculatorError "Cannot calculate square root of negative number".
Proof.
  apply (proj1 square_root_negative_and_round_trip (Int (-1))). reflexivity.
Defined.

(** ** Commutativity of [add] and [multiply] *)

Lemma SFadd_comm (x y : spec_float) : SFadd prec emax x y = SFadd prec emax y x.
Proof.
  destruct x as [sx|sx| |sx mx ex], y as [sy|sy| |sy my ey];
    try reflexivity; try (destruct sx, sy; reflexivity).
  cbn [SFadd]. rewrite (Z.min_comm ey ex). f_equal. apply Z.add_comm.
Qed.

Lemma SFmul_comm (x y : spec_float) : SFmul prec emax x y = SFmul prec emax y x.
Proof.
  destruct x as [sx|sx| |sx mx ex], y as [sy|sy| |sy my ey];
    try reflexivity; cbn [SFmul]; rewrite (xorb_comm sy sx); try reflexivity.
  now rewrite (Pos.mul_comm my mx), (Z.add_comm ey ex).
Qed.

(** The IEEE sum and product do not depend on the order of the operands
    (a float here has a single NaN). *)
Lemma float_add_comm (x y : float) : (x + y = y + x)%float.
Proof. apply Prim2SF_inj. rewrite !add_spec. apply SFadd_comm. Qed.

Lemma float_mul_comm (x y : float) : (x * y = y * x)%float.
Proof. apply Prim2SF_inj. rewrite !mul_spec. apply SFmul_comm. Qed.

Lemma arith_comm (iop : Z -> Z -> Z) (fop : float -> float -> float) :
  (forall x y, iop x y = iop y x) ->
  (forall x y, fop x y = fop y x) ->
  forall a b, arith iop fop a b = arith iop fop b a.
Proof.
  intros Hi Hf [x|x] [y|y]; cbn [arith as_float bind].
  - now rewrite Hi.
  - destruct (int_to_float x); cbn [bind]; [now rewrite Hf|reflexivity].
  - destruct (int_to_float y); cbn [bind]; [now rewrite Hf|reflexivity].
  - now rewrite Hf.
Qed.

Lemma py_eq_refl (n : number) : is_nan_number n = false -> py_eq n n = true.
Proof.
  destruct n as [z|f]; cbn [is_nan_number py_eq].
  - intros _. apply Z.eqb_refl.
  - unfold is_nan. now destruct (f =? f)%float.
Qed.

(** C9, as stated, fails on non-finite values: [inf + -inf] and [inf * 0.0]
    are NaN in either order, and NaN is not equal to itself. *)
Lemma commutativity_test_fails_on_nan :
  add (Float infinity) (Float neg_infinity) = Return (Float nan) /\
  add (Float neg_infinity) (Float infinity) = Return (Float nan) /\
  multiply (Float infinity) (Float zero) = Return (Float nan) /\
  multiply (Float zero) (Float infinity) = Return (Float nan) /\
  py_eq (Float nan) (Float nan) = false.
Proof.
  repeat (apply conj); vm_compute; reflexivity.
Qed.

(** C9, amended: [add(a, b)] and [add(b, a)] have the same outcome (the same
    number, or the same exception), and so have [multiply(a, b)] and
    [multiply(b, a)]; the two results compare equal with [==] whenever the
    result is not NaN. *)
Theorem add_multiply_commute (a b : number) :
  add a b = add b a /\
  multiply a b = multiply b a /\
  (forall x y : number,
      add a b = Return x -> add b a = Return y ->
      is_nan_number x = false -> py_eq x y = true) /\
  (forall x y : number,
      multiply a b = Return x -> multiply b a = Return y ->
      is_nan_number x = false -> py_eq x y = true).
Proof.
  assert (Ha : add a b = add b a).
  { apply arith_comm; [apply Z.add_comm | apply float_add_comm]. }
  assert (Hm : multiply a b = multiply b a).
  { apply arith_comm; [apply Z.mul_comm | apply float_mul_comm]. }
  repeat (apply conj); try assumption.
  - intros x y Hx Hy Hnan. rewrite <- Ha, Hx in Hy.
    injection Hy as <-. now apply py_eq_refl.
  - intros x y Hx Hy Hnan. rewrite <- Hm, Hx in Hy.
    injection Hy as <-. now apply py_eq_refl.
Qed.

Lemma add_commutes_example :
  py_eq (Float 3.5) (Float 3.5) = true.
Proof.
  apply (proj1 (proj2 (proj2 (add_multiply_commute (Float 1.5) (Int 2))))
           (Float 3.5) (Float 3.5)); reflexivity.
Defined.

(** ** Every failure is a [CalculatorError] *)

Lemma raises_Exception_Return {A : Type} (a : A) : raises_Exception (Return a).
Proof. intros e Heq. discriminate. Qed.

Lemma raises_Exception_raise {A : Type} (c : exn_class) (msg : string) :
  issubclass c Exception = true -> raises_Exception (@raise A c msg).
Proof. intros Hc e Heq. injection Heq as <-. exact Hc. Qed.

Lemma raises_Exception_bind {A B : Type} (c : result A) (k : A -> result B) :
  raises_Exception c -> (forall a, raises_Exception (k a)) ->
  raises_Exception (bind c k).
Proof.
  intros Hc Hk. destruct c as [a|e]; cbn [bind]; [apply Hk|].
  intros e' Heq. injection Heq as <-. now apply Hc.
Qed.

(** Decomposes an outcome along its binds and case distinctions. *)
Ltac raises :=
  repeat first
    [ assumption
    | apply raises_Exception_Return
    | apply raises_Exception_raise; reflexivity
    | apply raises_Exception_bind; [|intro]
    | progress cbv zeta
    | match goal with
      | |- raises_Exception (if ?b then _ else _) => destruct b
      | |- raises_Exception (match ?x with _ => _ end) => destruct x
      end ].

Lemma int_to_float_raises z : raises_Exception (int_to_float z).
Proof. unfold int_to_float. raises. Qed.

Lemma as_float_raises n : raises_Exception (as_float n).
Proof. destruct n; [apply int_to_float_raises | raises]. Qed.

Lemma to_double_raises v : raises_Exception (to_double v).
Proof. destruct v; cbn [to_double]; first [apply as_float_raises | raises]. Qed.

Lemma math_sqrt_raises v : raises_Exception (math_sqrt v).
Proof. unfold math_sqrt. pose proof (to_double_raises v). raises. Qed.

Lemma arith_raises iop fop a b : raises_Exception (arith iop fop a b).
Proof.
  pose proof (as_float_raises a). pose proof (as_float_raises b).
  destruct a, b; cbn [arith]; raises.
Qed.

Lemma py_truediv_raises a b : raises_Exception (py_truediv a b).
Proof.
  pose proof (as_float_raises a). pose proof (as_float_raises b).
  destruct a, b; cbn [py_truediv]; unfold int_true_divide; raises.
Qed.

Section HostOk.

Variable H : host.
Hypothesis HH : host_ok H.

Lemma py_pow_raises a b : raises_Exception (py_pow H a b).
Proof.
  destruct HH as [Hpow _].
  pose proof (as_float_raises a). pose proof (as_float_raises b).
  destruct a as [x|x], b as [y|y]; cbn [py_pow];
    try pose proof (int_to_float_raises x);
    try pose proof (int_to_float_raises y); raises; apply Hpow.
Qed.

Lemma fragment_raises_Some r : raises_Exception r -> fragment_raises (Some r).
Proof. intros Hr r' Heq. now injection Heq as <-. Qed.

Lemma fragment_raises_None : fragment_raises None.
Proof. intros r Heq. discriminate. Qed.

Lemma call_raises f arg : fragment_raises (call f arg).
Proof.
  pose proof (math_sqrt_raises arg).
  destruct f as [n|[]|m|t], arg as [n'|b'|m'|t']; cbn [call];
    first [apply fragment_raises_None | apply fragment_raises_Some; raises].
Qed.

Lemma unary_raises minus v : fragment_raises (unary minus v).
Proof.
  destruct v; cbn [unary];
    first [apply fragment_raises_None | apply fragment_raises_Some; raises].
Qed.

Lemma binary_raises o a b : fragment_raises (binary H o a b).
Proof.
  destruct a as [x|f|m|t], b as [y|g|m'|t']; cbn [binary];
    first [apply fragment_raises_None | apply fragment_raises_Some];
    try (raises; fail).
  pose proof (arith_raises Z.add PrimFloat.add x y).
  pose proof (arith_raises Z.sub PrimFloat.sub x y).
  pose proof (arith_raises Z.mul PrimFloat.mul x y).
  pose proof (py_truediv_raises x y).
  pose proof (py_pow_raises x y).
  destruct o; unfold py_add, py_sub, py_mul; raises.
Qed.

Lemma getattr_raises v attr : fragment_raises (getattr v attr).
Proof.
  intros r Heq. unfold getattr in Heq.
  repeat match type of Heq with
         | match ?x with _ => _ end = _ => destruct x; try discriminate
         | (if ?b then _ else _) = _ => destruct b; try discriminate
         end.
  injection Heq as <-. raises.
Qed.

Lemma eval_expr_raises e : fragment_raises (eval_expr H e).
Proof.
  induction e as [n|x|e IH attr|f IHf arg IHarg|e IH|e IH|o l IHl r IHr];
    cbn [eval_expr].
  - apply fragment_raises_Some. raises.
  - destruct (lookup x safe_dict); apply fragment_raises_Some; raises.
  - destruct (eval_expr H e) as [[v|x]|]; [apply getattr_raises|exact IH|exact IH].
  - destruct (eval_expr H f) as [[vf|x]|]; [|exact IHf|exact IHf].
    destruct (eval_expr H arg) as [[va|x]|]; [apply call_raises|exact IHarg|exact IHarg].
  - destruct (eval_expr H e) as [[v|x]|]; [apply unary_raises|exact IH|exact IH].
  - destruct (eval_expr H e) as [[v|x]|]; [apply unary_raises|exact IH|exact IH].
  - destruct (eval_expr H l) as [[vl|x]|]; [|exact IHl|exact IHl].
    destruct (eval_expr H r) as [[vr|x]|]; [apply binary_raises|exact IHr|exact IHr].
Qed.

Lemma eval_raises source : raises_Exception (eval H source).
Proof.
  unfold eval, py_eval.
  destruct (tokenize source) as [ts|]; [|apply HH].
  destruct (parse ts) as [e|]; [|apply HH].
  pose proof (eval_expr_raises e) as He.
  destruct (eval_expr H e) as [r|]; [now apply He|apply HH].
Qed.

End HostOk.

Lemma handler_CalculatorError (e : exn) :
  issubclass (exn_cls e) Exception = true ->
  exists msg, handler e = raise CalculatorError msg.
Proof.
  destruct e as [c m]. unfold handler. cbn [exn_cls exn_msg].
  destruct c; cbn; intros Hc; try discriminate; eexists; reflexivity.
Qed.

(** C3: for every string, [evaluate_expression] returns a float or raises a
    [CalculatorError], provided the interpreter raises instances of
    [Exception] only (as every error of parsing or evaluating an expression
    is). *)
Theorem evaluate_expression_float_or_CalculatorError (H : host) :
  host_ok H ->
  forall expression : string,
    (exists f : float, evaluate_expression H expression = Return (Num (Float f))) \/
    (exists msg : string, evaluate_expression H expression = raise CalculatorError msg).
Proof.
  intros HH expression. unfold evaluate_expression.
  destruct (String.eqb expression ""); [right; eexists; reflexivity|].
  destruct (str_all allowed _); cbn [negb]; [|right; eexists; reflexivity].
  destruct (_ =? _)%nat; cbn [negb]; [|right; eexists; reflexivity].
  set (source := safe_expression _).
  pose proof (eval_raises H HH source) as Heval.
  destruct (eval H source) as [v|e]; cbn [bind];
    [|right; apply handler_CalculatorError; now apply Heval].
  unfold math_isinf, math_isnan, py_float.
  pose proof (to_double_raises v) as Hv.
  destruct v as [[z|f]|b|m|t]; cbn [to_double as_float bind] in *;
    try (right; apply handler_CalculatorError; now apply Hv).
  - destruct (int_to_float z) as [x|e]; cbn [bind];
      [|right; apply handler_CalculatorError; now apply Hv].
    destruct (is_infinity x); [right; eexists; reflexivity|].
    destruct (is_nan x); [right; eexists; reflexivity|].
    left. eexists. reflexivity.
  - destruct (is_infinity f); [right; eexists; reflexivity|].
    destruct (is_nan f); [right; eexists; reflexivity|].
    left. eexists. reflexivity.
Qed.

Lemma sample_host_ok : host_ok sample_host.
Proof. split; intros; apply raises_Exception_raise; reflexivity. Qed.

Lemma evaluate_expression_total_example :
  (exists f : float, evaluate_expression sample_host "5 / 0" = Return (Num (Float f))) \/
  (exists msg : string, evaluate_expression sample_host "5 / 0" = raise CalculatorError msg).
Proof.
  apply (evaluate_expression_float_or_CalculatorError sample_host sample_host_ok "5 / 0").
Defined.

(** ** The numeric guard after evaluation *)

Lemma SFcompare_refl (x : spec_float) :
  x <> S754_nan -> SFcompare x x = Some Eq.
Proof.
  destruct x as [s|s| |s m e]; intros Hx; cbn [SFcompare];
    try reflexivity; try contradiction; try now destruct s.
  destruct s; rewrite Z.compare_refl, Pos.compare_cont_refl; reflexivity.
Qed.

Lemma is_nan_not_infinity (f : float) : is_nan f = true -> is_infinity f = false.
Proof.
  unfold is_nan, is_infinity. rewrite !eqb_spec, abs_spec. unfold SFeqb.
  destruct (Prim2SF f) as [s|s| |s m e] eqn:E; cbn [SFabs];
    try reflexivity;
    rewrite SFcompare_refl by discriminate; discriminate.
Qed.

(** What [evaluate_expression] does with an expression that passes its
    three checks and evaluates to the float [f]. *)
Lemma evaluate_expression_of_float (H : host) (expression : string) (f : float) :
  expression <> "" ->
  str_all allowed (str_replace expression " " "") = true ->
  str_count expression "(" = str_count expression ")" ->
  eval H (safe_expression (str_replace expression " " "")) = Return (Num (Float f)) ->
  evaluate_expression H expression =
  if is_infinity f then
    raise CalculatorError "Error evaluating expression: Result is infinity"
  else if is_nan f then
    raise CalculatorError "Error evaluating expression: Invalid operation resulting in NaN"
  else Return (Num (Float f)).
Proof.
  intros Hne Hall Hcount Heval. unfold evaluate_expression.
  destruct (String.eqb_spec expression "") as [->|_]; [contradiction|].
  rewrite Hall. cbn [negb].
  assert (Hc : (str_count (str_replace expression " " "") "(" =?
                str_count (str_replace expression " " "") ")")%nat = true).
  { unfold str_count in *. rewrite replace_space.
    rewrite !count_char_without_spaces by discriminate.
    now apply Nat.eqb_eq. }
  rewrite Hc, Heval. cbn [negb bind math_isinf math_isnan to_double as_float py_float].
  destruct (is_infinity f); [reflexivity|].
  destruct (is_nan f); reflexivity.
Qed.

(** An infinite or NaN result never reaches the caller with the message of
    the guard: the guard's error is raised inside the [try] block and is
    re-raised by its last clause with a prefix. *)
Theorem guard_message_is_prefixed (H : host) (expression : string) (f : float) :
  expression <> "" ->
  str_all allowed (str_replace expression " " "") = true ->
  str_count expression "(" = str_count expression ")" ->
  eval H (safe_expression (str_replace expression " " "")) = Return (Num (Float f)) ->
  (is_infinity f = true ->
   evaluate_expression H expression =
   raise CalculatorError "Error evaluating expression: Result is infinity") /\
  (is_nan f = true ->
   evaluate_expression H expression =
   raise CalculatorError "Error evaluating expression: Invalid operation resulting in NaN").
Proof.
  intros Hne Hall Hcount Heval.
  rewrite (evaluate_expression_of_float H expression f Hne Hall Hcount Heval).
  split.
  - intros ->. reflexivity.
  - intros Hnan. now rewrite (is_nan_not_infinity f Hnan), Hnan.
Qed.

Lemma guard_message_example :
  evaluate_expression sample_host "10 ** 308 * 10.0" =
  raise CalculatorError "Error evaluating expression: Result is infinity".
Proof.
  refine (proj1 (guard_message_is_prefixed sample_host "10 ** 308 * 10.0" infinity
                   _ _ _ _) _);
    try discriminate; vm_compute; reflexivity.
Defined.

(** An exception that is not an [Exception] would pass through the handler;
    this is why the interpreter's exceptions are required to be. *)
Lemma handler_passes_KeyboardInterrupt (msg : string) :
  handler (mkExn KeyboardInterrupt msg) = Raise (mkExn KeyboardInterrupt msg).
Proof. reflexivity. Qed.

(** ** The module's unit tests, on the model *)

Example test_divide_by_zero :
  divide (Int 5) (Int 0) = raise CalculatorError "Division by zero is not allowed".
Proof. reflexivity. Qed.

Example test_divide :
  divide (Int 7) (Int 2) = Return (Float 3.5) /\
  divide (Int (-8)) (Int 4) = Return (Float (-2)).
Proof. split; vm_compute; reflexivity. Qed.

Example test_power_edge_cases (H : host) :
  power H (Int 10) (Int 1000) = raise CalculatorError "Number too large to represent".
Proof. vm_compute. reflexivity. Qed.

Example test_power (H : host) :
  power H (Int 2) (Int 3) = Return (Num (Int 8)) /\
  power H (Int (-2)) (Int 3) = Return (Num (Int (-8))).
Proof. split; vm_compute; reflexivity. Qed.

Example test_square_root :
  square_root (Int 9) = Return (Float 3) /\ square_root (Int 0) = Return (Float 0).
Proof. split; vm_compute; reflexivity. Qed.

Example test_modulus :
  modulus (Int 10) (Int 3) = Return (Int 1) /\
  modulus (Int 5) (Int 0) = raise CalculatorError "Modulus by zero is not allowed".
Proof. split; reflexivity. Qed.

Example test_evaluate_expression_basic (H : host) :
  evaluate_expression H "10 - 4" = Return (Num (Float 6)) /\
  evaluate_expression H "15 / 3" = Return (Num (Float 5)) /\
  evaluate_expression H "2 ** 3" = Return (Num (Float 8)) /\
  evaluate_expression H "10 + 2 * 3" = Return (Num (Float 16)) /\
  evaluate_expression H "abs(-5)" = Return (Num (Float 5)).
Proof. repeat (apply conj); vm_compute; reflexivity. Qed.

Example test_evaluate_expression_errors (H : host) :
  evaluate_expression H "5 / 0" =
    raise CalculatorError "Division by zero in expression" /\
  evaluate_expression H "(2 + 3" = raise CalculatorError "Unbalanced parentheses" /\
  evaluate_expression H "" = raise CalculatorError "Invalid expression" /\
  evaluate_expression H "2 + a" =
    raise CalculatorError "Error evaluating expression: name 'a' is not defined" /\
  evaluate_expression H "sqrt(-1)" =
    raise CalculatorError "Invalid expression: math domain error".
Proof. repeat (apply conj); vm_compute; reflexivity. Qed.

(** ** The returned float is finite *)

(** Whatever the interpreter does, a value returned by [evaluate_expression]
    is a float that is neither infinite nor NaN. *)
Theorem evaluate_expression_returns_finite (H : host) (expression : string) (v : value) :
  evaluate_expression H expression = Return v ->
  exists f : float, v = Num (Float f) /\ is_infinity f = false /\ is_nan f = false.
Proof.
  unfold evaluate_expression.
  destruct (String.eqb expression ""); [discriminate|].
  destruct (str_all allowed _); cbn [negb]; [|discriminate].
  destruct (_ =? _)%nat; cbn [negb]; [|discriminate].
  destruct (eval H _) as [r|e]; cbn [bind].
  2: { unfold handler.
       repeat match goal with
              | |- (if ?b then _ else _) = _ -> _ => destruct b
              end; discriminate. }
  unfold math_isinf, math_isnan, py_float.
  assert (Hhandler : forall e, handler e = Return v -> False).
  { intros e. unfold handler.
    repeat match goal with
           | |- (if ?b then _ else _) = _ -> _ => destruct b
           end; discriminate. }
  destruct r as [n|b|m|t]; cbn [to_double bind];
    try (intros Hr; exfalso; exact (Hhandler _ Hr)).
  destruct (as_float n) as [x|e] eqn:En; cbn [bind];
    [|intros Hr; exfalso; exact (Hhandler _ Hr)].
  destruct (is_infinity x) eqn:Einf; cbn [raise];
    [intros Hr; exfalso; exact (Hhandler _ Hr)|].
  cbn [bind].
  destruct (is_nan x) eqn:Enan; cbn [raise];
    [intros Hr; exfalso; exact (Hhandler _ Hr)|].
  cbn [bind]. intros Hr. injection Hr as <-. now exists x.
Qed.

Lemma evaluate_expression_returns_finite_example :
  exists f : float, Num (Float 5) = Num (Float f) /\ is_infinity f = false /\ is_nan f = false.
Proof.
  apply (evaluate_expression_returns_finite sample_host "2 + 3" (Num (Float 5))).
  vm_compute. reflexivity.
Defined.

(** ** Rounding never produces NaN *)

Lemma shr_1_nonneg (mrs : shr_record) :
  (0 <= shr_m mrs)%Z -> (0 <= shr_m (shr_1 mrs))%Z.
Proof.
  destruct mrs as [m r s]. cbn [shr_m].
  destruct m as [|[p|p|]|p]; cbn; lia.
Qed.

Lemma iter_shr_1_nonneg (p : positive) (mrs : shr_record) :
  (0 <= shr_m mrs)%Z -> (0 <= shr_m (iter_pos shr_1 p mrs))%Z.
Proof.
  revert mrs. induction p as [p IH|p IH|]; intros mrs Hm; cbn [iter_pos].
  - apply IH, IH. now apply shr_1_nonneg.
  - now apply IH, IH.
  - now apply shr_1_nonneg.
Qed.

Lemma shr_fexp_nonneg (m e : Z) (l : location) :
  (0 <= m)%Z -> (0 <= shr_m (fst (shr_fexp prec emax m e l)))%Z.
Proof.
  intros Hm. unfold shr_fexp, shr.
  assert (H0 : (0 <= shr_m (shr_record_of_loc m l))%Z) by (now destruct l as [|[]]).
  destruct (_ - e)%Z; cbn [fst]; try assumption.
  now apply iter_shr_1_nonneg.
Qed.

Lemma round_nearest_even_nonneg (m : Z) (l : location) :
  (0 <= m)%Z -> (0 <= round_nearest_even m l)%Z.
Proof.
  intros Hm. destruct l as [|[]]; cbn [round_nearest_even]; try lia.
  destruct (Z.even m); lia.
Qed.

Lemma binary_round_aux_not_nan (s : bool) (m e : Z) (l : location) :
  (0 <= m)%Z -> binary_round_aux prec emax s m e l <> S754_nan.
Proof.
  intros Hm. unfold binary_round_aux.
  pose proof (shr_fexp_nonneg m e l Hm) as H1.
  destruct (shr_fexp prec emax m e l) as [mrs' e']. cbn [fst] in H1.
  pose proof (shr_fexp_nonneg _ e' loc_Exact
                (round_nearest_even_nonneg _ (loc_of_shr_record mrs') H1)) as H2.
  destruct (shr_fexp prec emax _ e' loc_Exact) as [mrs'' e'']. cbn [fst] in H2.
  destruct (shr_m mrs'') as [|p|p]; [discriminate| |lia].
  destruct (e'' <=? _)%Z; discriminate.
Qed.



Lemma is_nan_Prim2SF (f : float) : is_nan f = false <-> Prim2SF f <> S754_nan.
Proof.
  split.
  - intros Hf. unfold Prim2SF. rewrite Hf.
    destruct (is_zero f); [discriminate|].
    destruct (is_infinity f); [discriminate|].
    destruct (Z.frexp f) as [r ex].
    destruct (shr_fexp _ _ _ _ _) as [sh e'].
    destruct (shr_m sh); discriminate.
  - intros Hf. destruct (is_nan f) eqn:E; [|reflexivity].
    exfalso. apply Hf. unfold Prim2SF. now rewrite E.
Qed.



(** ** [power] *)



(** A value returned by [power] is a number whose float value is neither
    infinite nor NaN, whatever the floating-point power yields. *)
Theorem power_returns_finite (H : host) (base exponent : number) (v : value) :
  power H base exponent = Return v ->
  exists (n : number) (x : float),
    v = Num n /\ as_float n = Return x /\ is_infinity x = false /\ is_nan x = false.
Proof.
  unfold power.
  destruct (py_pow H base exponent) as [r|e]; cbn [bind].
  2: { destruct (issubclass _ _); discriminate. }
  unfold math_isinf, math_isnan.
  destruct r as [n|b|m|t]; cbn [to_double bind raise];
    try (destruct (issubclass _ _); discriminate).
  destruct (as_float n) as [x|e] eqn:En; cbn [bind];
    [|destruct (issubclass _ _); discriminate].
  destruct (is_infinity x) eqn:Einf; cbn [raise];
    [destruct (issubclass _ _); discriminate|].
  cbn [bind].
  destruct (is_nan x) eqn:Enan; cbn [raise];
    [destruct (issubclass _ _); discriminate|].
  intros Hv. injection Hv as <-. now exists n, x.
Qed.

Lemma power_returns_finite_example :
  exists (n : number) (x : float),
    Num (Int 8) = Num n /\ as_float n = Return x /\
    is_infinity x = false /\ is_nan x = false.
Proof.
  apply (power_returns_finite sample_host (Int 2) (Int 3) (Num (Int 8))).
  vm_compute. reflexivity.
Defined.

(** On two floats, [power] delivers the messages of its guards unchanged:
    an infinite power is "Result is infinity", a NaN power is "Invalid
    operation resulting in NaN", an [OverflowError] of the floating-point
    power is "Number too large to represent", and a finite power is
    returned. *)
Lemma power_of_floats (H : host) (x y : float) :
  (forall f : float,
      float_pow H x y = Return (Num (Float f)) ->
      power H (Float x) (Float y) =
      if is_infinity f then raise CalculatorError "Result is infinity"
      else if is_nan f then raise CalculatorError "Invalid operation resulting in NaN"
      else Return (Num (Float f))) /\
  (forall e : exn,
      float_pow H x y = Raise e ->
      issubclass (exn_cls e) OverflowError = true ->
      power H (Float x) (Float y) =
      raise CalculatorError "Number too large to represent").
Proof.
  split.
  - intros f Hf. unfold power. cbn [py_pow as_float bind]. rewrite Hf.
    unfold math_isinf, math_isnan. cbn [bind to_double as_float].
    destruct (is_infinity f); [reflexivity|]. cbn [bind].
    destruct (is_nan f); reflexivity.
  - intros e He Hc. unfold power. cbn [py_pow as_float bind]. rewrite He.
    cbn [bind]. now rewrite Hc.
Qed.

(** ** [square_root], [divide] and [modulus] on floats *)

Lemma SFsqrt_not_nan (x : spec_float) :
  x <> S754_nan -> SFltb x (S754_zero false) = false ->
  SFsqrt prec emax x <> S754_nan.
Proof.
  intros Hx Hlt. destruct x as [s|[]| |[] m e]; cbn [SFsqrt];
    try discriminate; try contradiction.
  destruct (SFsqrt_core_binary prec emax (Z.pos m) e) as [[mz ez] lz] eqn:E.
  apply binary_round_aux_not_nan.
  unfold SFsqrt_core_binary in E.
  match type of E with
  | context [Z.sqrtrem ?n] =>
      pose proof (Z.sqrtrem_sqrt n) as Hs; pose proof (Z.sqrt_nonneg n) as Hn;
      destruct (Z.sqrtrem n) as [q r]
  end.
  injection E as <- _ _. cbn [fst] in Hs. lia.
Qed.

(** The root of a float that is neither NaN nor below zero is not NaN. *)
Lemma sqrt_not_nan (f : float) :
  (f <? zero)%float = false -> is_nan f = false -> is_nan (sqrt f) = false.
Proof.
  intros Elt Enan. apply is_nan_Prim2SF. rewrite sqrt_spec. apply SFsqrt_not_nan.
  - now apply is_nan_Prim2SF.
  - now rewrite <- Prim2SF_zero, <- ltb_spec.
Qed.

(** The guard of [square_root] is complete on floats: every float that is
    not below zero (NaN included) has a root, which is returned; the
    [ValueError] of [math.sqrt] never occurs. *)
Theorem square_root_of_float (f : float) :
  square_root (Float f) =
  if (f <? zero)%float
  then raise CalculatorError "Cannot calculate square root of negative number"
  else Return (Float (sqrt f)).
Proof.
  unfold square_root. rewrite py_lt_zero_float.
  destruct (f <? zero)%float eqn:Elt; [reflexivity|].
  unfold math_sqrt. cbn [to_double as_float bind].
  destruct (is_nan f) eqn:Enan; [now rewrite andb_false_r|].
  now rewrite (sqrt_not_nan f Elt Enan).
Qed.

(** On floats, [divide] and [modulus] fail exactly when the divisor is a
    zero of either sign, with their own messages; otherwise they return the
    IEEE quotient and the remainder, and raise nothing. *)
Theorem divide_and_modulus_of_floats (a b : float) :
  divide (Float a) (Float b) =
    (if (b =? zero)%float
     then raise CalculatorError "Division by zero is not allowed"
     else Return (Float (a / b))) /\
  modulus (Float a) (Float b) =
    (if (b =? zero)%float
     then raise CalculatorError "Modulus by zero is not allowed"
     else Return (Float (float_rem a b))).
Proof.
  unfold divide, modulus. rewrite py_eq_zero_float.
  cbn [py_truediv py_mod as_float bind].
  change (b =? 0)%float with (b =? zero)%float.
  destruct (b =? zero)%float eqn:E; split; reflexivity.
Qed.

(** ** [subtract] *)

Lemma SFsub_add_opp (x y : spec_float) :
  SFsub prec emax x y = SFadd prec emax x (SFopp y).
Proof.
  destruct x as [sx|sx| |sx mx ex], y as [sy|sy| |sy my ey];
    try reflexivity; destruct sx, sy; reflexivity.
Qed.

(** Subtracting is adding the negation.  On two [int]s both give the
    same [int]; on two floats both give the same IEEE value, the signs of
    zeros and of infinities included, and one is a NaN exactly when the
    other is (a float here has a single NaN: the sign and the payload of a
    NaN are not part of the model). *)
Theorem subtract_is_add_of_negation :
  (forall x y : Z, subtract (Int x) (Int y) = add (Int x) (py_neg (Int y))) /\
  (forall x y : float, subtract (Float x) (Float y) = add (Float x) (py_neg (Float y))).
Proof.
  split; intros x y; unfold subtract, add, py_sub, py_add;
    cbn [arith py_neg as_float bind].
  - reflexivity.
  - f_equal. f_equal. apply Prim2SF_inj.
    rewrite sub_spec, add_spec, opp_spec. apply SFsub_add_opp.
Qed.

(** ** More on [evaluate_expression] *)

Lemma without_spaces_idempotent (s : string) :
  without_spaces (without_spaces s) = without_spaces s.
Proof.
  induction s as [|c s IH]; [reflexivity|].
  cbn [without_spaces]. destruct (Ascii.eqb c space) eqn:E; [exact IH|].
  cbn [without_spaces]. now rewrite E, IH.
Qed.

(** Spaces are ignored wherever they stand, also inside a number: an
    expression and the same expression without its spaces have the same
    outcome, as long as something other than spaces is left. *)
Theorem spaces_are_ignored (H : host) (expression : string) :
  without_spaces expression <> "" ->
  evaluate_expression H expression = evaluate_expression H (without_spaces expression).
Proof.
  intros Hne. unfold evaluate_expression.
  destruct (String.eqb_spec expression "") as [->|_]; [now elim Hne|].
  destruct (String.eqb_spec (without_spaces expression) "") as [E|_]; [contradiction|].
  now rewrite !replace_space, without_spaces_idempotent.
Qed.

Lemma spaces_are_ignored_example :
  evaluate_expression sample_host "1 2 + 3" = evaluate_expression sample_host "12+3".
Proof.
  apply (spaces_are_ignored sample_host "1 2 + 3"). vm_compute. discriminate.
Defined.

(** The messages that the [except] clauses can give to a [CalculatorError]. *)
Lemma handler_messages (e : exn) (msg : string) :
  handler e = raise CalculatorError msg ->
  msg = "Division by zero in expression" \/
  (exists m, msg = "Invalid expression: " ++ m) \/
  (exists m, msg = "Error evaluating expression: " ++ m).
Proof.
  unfold handler.
  destruct (issubclass (exn_cls e) ZeroDivisionError).
  { intros Hm. injection Hm as <-. now left. }
  destruct (_ || _ || _).
  { intros Hm. injection Hm as <-. right. left. now eexists. }
  destruct (issubclass (exn_cls e) Exception) eqn:Ex.
  { intros Hm. injection Hm as <-. right. right. now eexists. }
  intros Hm. unfold raise in Hm. injection Hm as ->. discriminate.
Qed.

(** An expression that passes the three checks ends in the [try] block: the
    outcome is a returned value or what the [except] clauses make of an
    exception. *)
Lemma evaluate_expression_checked (H : host) (expression : string) :
  expression <> "" ->
  str_all allowed (without_spaces expression) = true ->
  str_count expression "(" = str_count expression ")" ->
  (exists v, evaluate_expression H expression = Return v) \/
  (exists e, evaluate_expression H expression = handler e).
Proof.
  intros Hne Hall Hcount. unfold evaluate_expression.
  destruct (String.eqb_spec expression "") as [->|_]; [contradiction|].
  rewrite replace_space, Hall. cbn [negb].
  assert (Hc : (str_count (without_spaces expression) "(" =?
                str_count (without_spaces expression) ")")%nat = true).
  { unfold str_count in *.
    rewrite !count_char_without_spaces by discriminate.
    now apply Nat.eqb_eq. }
  rewrite Hc. cbn [negb].
  match goal with
  | |- context [match ?body with Return v => Return v | Raise e => handler e end] =>
      destruct body as [v|e]
  end; [left|right]; eexists; reflexivity.
Qed.

Lemma count_without_spaces (expression : string) :
  str_count (without_spaces expression) "(" = str_count expression "(" /\
  str_count (without_spaces expression) ")" = str_count expression ")".
Proof.
  unfold str_count. now rewrite !count_char_without_spaces by discriminate.
Qed.

(** Each of the three validation messages names its cause: "Invalid
    expression" is raised for the empty string only; "Expression contains
    invalid characters" exactly when the expression is not empty and one of
    its characters, spaces apart, fails the test; "Unbalanced parentheses"
    exactly when it is not empty, its characters pass and the numbers of
    opening and closing parentheses differ. *)
Theorem validation_errors_name_their_cause (H : host) (expression : string) :
  (evaluate_expression H expression = raise CalculatorError "Invalid expression"
   <-> expression = "") /\
  (evaluate_expression H expression =
   raise CalculatorError "Expression contains invalid characters"
   <-> expression <> "" /\ str_all allowed (without_spaces expression) = false) /\
  (evaluate_expression H expression = raise CalculatorError "Unbalanced parentheses"
   <-> expression <> "" /\ str_all allowed (without_spaces expression) = true /\
       str_count expression "(" <> str_count expression ")").
Proof.
  destruct (String.eqb_spec expression "") as [->|Hne].
  { (split; [|split]); split; intro Hx;
      first [reflexivity | discriminate Hx | destruct Hx as [Hx _]; now elim Hx]. }
  destruct (str_all allowed (without_spaces expression)) eqn:Hall.
  - destruct (Nat.eq_dec (str_count expression "(") (str_count expression ")"))
      as [Hcount|Hcount].
    + assert (Hno : forall msg,
                 evaluate_expression H expression = raise CalculatorError msg ->
                 msg <> "Invalid expression" /\
                 msg <> "Expression contains invalid characters" /\
                 msg <> "Unbalanced parentheses").
      { intros msg Hm.
        destruct (evaluate_expression_checked H expression Hne Hall Hcount)
          as [[v Hv]|[e He]]; [rewrite Hv in Hm; discriminate|].
        rewrite He in Hm.
        destruct (handler_messages e msg Hm) as [->|[[m ->]|[m ->]]];
          repeat split; cbn; discriminate. }
      (split; [|split]); split; intro Hx;
        first [ apply Hno in Hx; tauto
              | contradiction
              | destruct Hx as [_ Hx]; first [discriminate Hx | tauto] ].
    + assert (Hu : evaluate_expression H expression =
                   raise CalculatorError "Unbalanced parentheses").
      { unfold evaluate_expression.
        destruct (String.eqb_spec expression "") as [->|_]; [contradiction|].
        rewrite replace_space, Hall. cbn [negb].
        destruct (count_without_spaces expression) as [-> ->].
        apply Nat.eqb_neq in Hcount. now rewrite Hcount. }
      rewrite Hu. (split; [|split]); split; intro Hx;
        first [ discriminate Hx
              | contradiction
              | reflexivity
              | now repeat split
              | destruct Hx as [_ Hx]; discriminate Hx ].
  - assert (Hu : evaluate_expression H expression =
                 raise CalculatorError "Expression contains invalid characters").
    { unfold evaluate_expression.
      destruct (String.eqb_spec expression "") as [->|_]; [contradiction|].
      now rewrite replace_space, Hall. }
    rewrite Hu. (split; [|split]); split; intro Hx;
      first [ discriminate Hx
            | contradiction
            | reflexivity
            | now repeat split
            | destruct Hx as [_ [Hx _]]; discriminate Hx ].
Qed.

Lemma replace_absent (c0 : ascii) (rest new s : string) :
  char_in c0 s = false -> replace_from (String c0 rest) new 0 s = s.
Proof.
  induction s as [|c s IH]; [reflexivity|].
  cbn [char_in]. intros Hin. apply orb_false_iff in Hin as [Hc Hin].
  cbn [replace_from prefix].
  destruct (ascii_dec c0 c) as [->|_].
  - now rewrite Ascii.eqb_refl in Hc.
  - now rewrite IH.
Qed.

Lemma no_letters_char (c : ascii) (s : string) :
  is_letter c = true -> str_all (fun d => negb (is_letter d)) s = true ->
  char_in c s = false.
Proof.
  intros Hc. induction s as [|d s IH]; [reflexivity|].
  cbn [str_all char_in]. intros Hall. apply andb_true_iff in Hall as [Hd Hall].
  rewrite (IH Hall), orb_false_r.
  destruct (Ascii.eqb_spec c d) as [->|_]; [|reflexivity].
  now rewrite Hc in Hd.
Qed.

(** The replacement of function names does not touch an expression without
    letters: numbers, operators, points and parentheses reach [eval] as they
    were written. *)
Theorem safe_expression_without_letters (expression : string) :
  str_all (fun c => negb (is_letter c)) expression = true ->
  safe_expression expression = expression.
Proof.
  intros Hall. unfold safe_expression, str_replace.
  rewrite (replace_absent "s" "qrt" "math.sqrt" expression)
    by now apply no_letters_char.
  rewrite (replace_absent "l" "og" "math.log" expression)
    by now apply no_letters_char.
  rewrite (replace_absent "s" "in" "math.sin" expression)
    by now apply no_letters_char.
  rewrite (replace_absent "c" "os" "math.cos" expression)
    by now apply no_letters_char.
  rewrite (replace_absent "t" "an" "math.tan" expression)
    by now apply no_letters_char.
  apply replace_absent. now apply no_letters_char.
Qed.

Lemma safe_expression_without_letters_example :
  safe_expression "(2+3.5)*4" = "(2+3.5)*4".
Proof.
  apply (safe_expression_without_letters "(2+3.5)*4"). vm_compute. reflexivity.
Defined.

(** ** The HTTP layer *)

Section AppProperties.

Variable H : host.
Variable validate : value -> result float.

Lemma except_400_no_answer (e : exn) (r : OperationResponse) :
  except_400 e <> Answer r.
Proof. unfold except_400. destruct (issubclass _ _); discriminate. Qed.

Lemma except_400_500_no_answer (e : exn) (r : OperationResponse) :
  except_400_500 e <> Answer r.
Proof.
  unfold except_400_500.
  destruct (issubclass _ CalculatorError); [discriminate|].
  destruct (issubclass _ Exception); discriminate.
Qed.

(** An endpoint either answers with a new entry, which it has appended to
    the history, or leaves the history as it was. *)
Lemma try_operation_effect (name : string) (input_data : list (string * field))
    (computed : result value) (on_error : exn -> reply OperationResponse)
    (now : string) (h : list OperationResponse) :
  (forall e r, on_error e <> Answer r) ->
  match fst (try_operation validate name input_data computed on_error now h) with
  | Answer r =>
      snd (try_operation validate name input_data computed on_error now h)
      = (h ++ [r])%list /\
      operation r = name /\ input r = input_data /\ timestamp r = now
  | _ => snd (try_operation validate name input_data computed on_error now h) = h
  end.
Proof.
  intros Hno. unfold try_operation.
  destruct (bind computed _) as [x|e]; cbn [add_to_history fst snd].
  - repeat split.
  - pose proof (Hno e) as He. destruct (on_error e); [now elim (He a)| |]; reflexivity.
Qed.

Ltac endpoint_effect now h :=
  unfold add_numbers, subtract_numbers, multiply_numbers, divide_numbers,
    power_operation, square_root_operation, modulus_operation,
    evaluate_math_expression;
  match goal with
  | |- context [try_operation validate ?n ?i ?c ?o now h] =>
      let He := fresh "He" in
      pose proof (try_operation_effect n i c o now h) as He;
      match type of He with
      | ?P -> _ =>
          let Hp := fresh "Hp" in
          assert (Hp : P)
            by (first [exact except_400_no_answer | exact except_400_500_no_answer]);
          specialize (He Hp);
          destruct (fst (try_operation validate n i c o now h)); tauto
      end
  end.

(** What one request does to the history. *)
Lemma serve_appends (req : request) (now : string) (h : list OperationResponse) :
  match fst (serve H validate req now h) with
  | Operation (Answer r) => snd (serve H validate req now h) = (h ++ [r])%list
  | Cleared _ => snd (serve H validate req now h) = []
  | _ => snd (serve H validate req now h) = h
  end.
Proof.
  destruct req; cbn [serve fst snd get_history clear_history];
    try reflexivity; endpoint_effect now h.
Qed.

(** One request changes the history in one of three ways: an operation that
    answers appends its answer, stamped with the time of the request and
    named after the operation, behind the entries already there; an
    operation that fails, and a [GET /history], which returns the entries,
    leave it unchanged; a [DELETE /history] empties it and reports how many
    entries there were. *)
Theorem serve_history_effect (req : request) (now : string)
    (h : list OperationResponse) :
  match fst (serve H validate req now h) with
  | Operation (Answer r) =>
      snd (serve H validate req now h) = (h ++ [r])%list /\
      operation r = operation_name req /\ timestamp r = now
  | Operation _ => snd (serve H validate req now h) = h
  | History entries => entries = h /\ snd (serve H validate req now h) = h
  | Cleared message =>
      message = "History cleared. Removed " ++ str_of_nat (List.length h) ++ " entries."
      /\ snd (serve H validate req now h) = []
  end.
Proof.
  destruct req; cbn [serve fst snd get_history clear_history operation_name];
    try (split; reflexivity); endpoint_effect now h.
Qed.

Lemma serve_all_app (reqs1 reqs2 : list (request * string))
    (h : list OperationResponse) :
  serve_all H validate (reqs1 ++ reqs2) h =
  let '(rs1, h1) := serve_all H validate reqs1 h in
  let '(rs2, h2) := serve_all H validate reqs2 h1 in
  ((rs1 ++ rs2)%list, h2).
Proof.
  revert h. induction reqs1 as [|[req now] reqs1 IH]; intros h; cbn [serve_all app].
  - now destruct (serve_all H validate reqs2 h).
  - destruct (serve H validate req now h) as [r h1]. rewrite IH.
    destruct (serve_all H validate reqs1 h1) as [rs1 h2].
    now destruct (serve_all H validate reqs2 h2).
Qed.

(** Over any sequence of requests without a [DELETE /history], the history
    grows by exactly the answers given, in the order of the requests;
    earlier entries are never changed, moved or dropped. *)
Theorem history_is_appended_answers (reqs : list (request * string))
    (h : list OperationResponse) :
  forallb (fun p => negb (is_delete (fst p))) reqs = true ->
  snd (serve_all H validate reqs h) =
  (h ++ answered (fst (serve_all H validate reqs h)))%list.
Proof.
  revert h. induction reqs as [|[req now] reqs IH]; intros h Hnd.
  - cbn. now rewrite app_nil_r.
  - cbn [forallb fst] in Hnd. apply andb_true_iff in Hnd as [Hreq Hnd].
    cbn [serve_all].
    pose proof (serve_appends req now h) as He.
    assert (Hnc : forall m, fst (serve H validate req now h) <> Cleared m).
    { intros m. destruct req; cbn [serve fst get_history];
        first [discriminate | discriminate Hreq]. }
    destruct (serve H validate req now h) as [r h1]. cbn [fst snd] in He, Hnc.
    specialize (IH h1 Hnd).
    destruct (serve_all H validate reqs h1) as [rs h2]. cbn [fst snd] in *.
    destruct r as [[a|s d|e]|entries|message]; cbn [answered].
    + subst h1. rewrite IH. now rewrite <- app_assoc.
    + now subst h1.
    + now subst h1.
    + now subst h1.
    + now elim (Hnc message).
Qed.

(** A [DELETE /history] makes everything before it irrelevant: the history
    after the later requests is the one a fresh server would have. *)
Theorem delete_forgets_the_past (before after : list (request * string))
    (t : string) (h : list OperationResponse) :
  snd (serve_all H validate (before ++ (DeleteHistory, t) :: after) h) =
  snd (serve_all H validate after []).
Proof.
  rewrite serve_all_app.
  destruct (serve_all H validate before h) as [rs1 h1].
  cbn [serve_all serve clear_history].
  now destruct (serve_all H validate after []) as [rs2 h2].
Qed.

(** The six arithmetic endpoints on the floats of a request.  Addition,
    subtraction and multiplication always answer, also with an infinite or
    NaN result; division and modulus answer 400 exactly for a zero divisor
    and the square root exactly for an operand below zero, with the message
    of the [CalculatorError]; none of them answers 500, and each answer is
    recorded. *)
Theorem arithmetic_endpoints (a b : float) (now : string)
    (h : list OperationResponse) :
  let ab := [("a", FNum a); ("b", FNum b)] in
  add_numbers validate a b now h = recorded (entry "addition" ab (a + b) now) h /\
  subtract_numbers validate a b now h =
    recorded (entry "subtraction" ab (a - b) now) h /\
  multiply_numbers validate a b now h =
    recorded (entry "multiplication" ab (a * b) now) h /\
  divide_numbers validate a b now h =
    (if (b =? zero)%float
     then (HTTPException 400 "Division by zero is not allowed", h)
     else recorded (entry "division" ab (a / b) now) h) /\
  modulus_operation validate a b now h =
    (if (b =? zero)%float
     then (HTTPException 400 "Modulus by zero is not allowed", h)
     else recorded (entry "modulus" ab (float_rem a b) now) h) /\
  square_root_operation validate a now h =
    (if (a <? zero)%float
     then (HTTPException 400 "Cannot calculate square root of negative number", h)
     else recorded (entry "square_root" [("value", FNum a)] (sqrt a) now) h).
Proof.
  cbv zeta.
  unfold add_numbers, subtract_numbers, multiply_numbers, divide_numbers,
    modulus_operation, square_root_operation, try_operation.
  unfold divide, modulus, square_root.
  rewrite py_eq_zero_float, py_lt_zero_float.
  repeat apply conj; try reflexivity.
  - destruct (b =? zero)%float eqn:E; [reflexivity|].
    cbn [py_truediv as_float bind number_result].
    change (b =? 0)%float with (b =? zero)%float. now rewrite E.
  - destruct (b =? zero)%float eqn:E; [reflexivity|].
    cbn [py_mod as_float bind number_result].
    change (b =? 0)%float with (b =? zero)%float. now rewrite E.
  - destruct (a <? zero)%float eqn:Elt; [reflexivity|].
    unfold math_sqrt. cbn [to_double as_float bind number_result].
    destruct (is_nan a) eqn:Enan.
    + now rewrite andb_false_r.
    + now rewrite (sqrt_not_nan a Elt Enan).
Qed.

(** The power endpoint on the floats of a request: a finite power is
    recorded; an infinite or NaN power, and an [OverflowError] of the
    floating-point power, answer 400; any other exception of the
    floating-point power, such as the [ZeroDivisionError] of zero raised to a
    negative exponent, answers 500 with that exception's message. *)
Theorem power_endpoint (base exponent : float) (now : string)
    (h : list OperationResponse) :
  let be := [("base", FNum base); ("exponent", FNum exponent)] in
  (forall f : float,
      float_pow H base exponent = Return (Num (Float f)) ->
      power_operation H validate base exponent now h =
      if is_infinity f then (HTTPException 400 "Result is infinity", h)
      else if is_nan f
           then (HTTPException 400 "Invalid operation resulting in NaN", h)
           else recorded (entry "power" be f now) h) /\
  (forall e : exn,
      float_pow H base exponent = Raise e ->
      issubclass (exn_cls e) Exception = true ->
      power_operation H validate base exponent now h =
      if issubclass (exn_cls e) OverflowError
      then (HTTPException 400 "Number too large to represent", h)
      else if issubclass (exn_cls e) CalculatorError
           then (HTTPException 400 (exn_msg e), h)
           else (HTTPException 500 (exn_msg e), h)).
Proof.
  cbv zeta. unfold power_operation, try_operation. split.
  - intros f Hf. rewrite (proj1 (power_of_floats H base exponent) f Hf).
    destruct (is_infinity f); [reflexivity|].
    destruct (is_nan f); reflexivity.
  - intros e He Hex.
    destruct (issubclass (exn_cls e) OverflowError) eqn:Eo.
    + now rewrite (proj2 (power_of_floats H base exponent) e He Eo).
    + unfold power. cbn [py_pow as_float bind]. rewrite He. cbn [bind].
      rewrite Eo. cbn [bind]. unfold except_400_500. rewrite Hex.
      now destruct (issubclass (exn_cls e) CalculatorError).
Qed.

(** The outcome of [evaluate_expression] when the interpreter raises
    instances of [Exception] only. *)
Lemma evaluate_expression_outcome (expression : string) :
  host_ok H ->
  (exists f : float,
      evaluate_expression H expression = Return (Num (Float f)) /\
      is_infinity f = false /\ is_nan f = false) \/
  (exists msg : string, evaluate_expression H expression = raise CalculatorError msg).
Proof.
  intros HH. unfold evaluate_expression.
  destruct (String.eqb expression ""); [right; eexists; reflexivity|].
  destruct (str_all allowed _); cbn [negb]; [|right; eexists; reflexivity].
  destruct (_ =? _)%nat; cbn [negb]; [|right; eexists; reflexivity].
  set (source := safe_expression _).
  pose proof (eval_raises H HH source) as Heval.
  destruct (eval H source) as [v|e]; cbn [bind];
    [|right; apply handler_CalculatorError; now apply Heval].
  unfold math_isinf, math_isnan, py_float.
  pose proof (to_double_raises v) as Hv.
  destruct v as [n|b|m|t]; cbn [to_double bind] in *;
    try (right; apply handler_CalculatorError; now apply Hv).
  destruct (as_float n) as [x|e] eqn:En; cbn [bind];
    [|right; apply handler_CalculatorError; now apply Hv].
  destruct (is_infinity x) eqn:Einf; [right; eexists; reflexivity|].
  destruct (is_nan x) eqn:Enan; [right; eexists; reflexivity|].
  left. exists x. now repeat split.
Qed.

(** The evaluation endpoint never answers 500: it records a finite result,
    or answers 400 with the message of the [CalculatorError] and records
    nothing (for an interpreter that raises instances of [Exception]
    only). *)
Theorem evaluate_endpoint (expression : string) (now : string)
    (h : list OperationResponse) :
  host_ok H ->
  (exists f : float,
      is_infinity f = false /\ is_nan f = false /\
      evaluate_math_expression H validate expression now h =
      recorded (entry "evaluate" [("expression", FStr expression)] f now) h) \/
  (exists detail : string,
      evaluate_math_expression H validate expression now h =
      (HTTPException 400 detail, h)).
Proof.
  intros HH. unfold evaluate_math_expression, try_operation.
  destruct (evaluate_expression_outcome expression HH)
    as [(f & -> & Hinf & Hnan)|(msg & ->)].
  - left. exists f. now repeat split.
  - right. exists msg. reflexivity.
Qed.

End AppProperties.

Lemma history_is_appended_answers_example :
  snd (serve_all sample_host sample_validate
         [(PostAdd 1 2, "t1"); (PostDivide 1 0, "t2"); (GetHistory, "t3")] []) =
  ([] ++ answered
           (fst (serve_all sample_host sample_validate
                   [(PostAdd 1 2, "t1"); (PostDivide 1 0, "t2"); (GetHistory, "t3")]
                   [])))%list.
Proof.
  apply (history_is_appended_answers sample_host sample_validate). reflexivity.
Defined.

Lemma power_endpoint_example :
  power_operation zero_power_host sample_validate 0 (-1) "t" [] =
  (HTTPException 500 "0.0 cannot be raised to a negative power", []).
Proof.
  apply (proj2 (power_endpoint zero_power_host sample_validate 0 (-1) "t" [])
           (mkExn ZeroDivisionError "0.0 cannot be raised to a negative power"));
    reflexivity.
Defined.

Lemma evaluate_endpoint_example :
  (exists f : float,
      is_infinity f = false /\ is_nan f = false /\
      evaluate_math_expression sample_host sample_validate "5 / 0" "t" [] =
      recorded (entry "evaluate" [("expression", FStr "5 / 0")] f "t") []) \/
  (exists detail : string,
      evaluate_math_expression sample_host sample_validate "5 / 0" "t" [] =
      (HTTPException 400 detail, [])).
Proof.
  apply (evaluate_endpoint sample_host sample_validate "5 / 0" "t" [] sample_host_ok).
Defined.

(** ** The float remainder carries the sign of the divisor *)

Lemma digits2_pos_size (p : positive) : digits2_pos p = Pos.size p.
Proof. induction p as [p IH|p IH|]; cbn; now rewrite ?IH. Qed.

Lemma digits2_pos_bounds (p : positive) :
  (2 ^ (Z.pos (digits2_pos p) - 1) <= Z.pos p < 2 ^ Z.pos (digits2_pos p))%Z.
Proof.
  rewrite digits2_pos_size. split.
  - pose proof (Pos.size_le p) as Hle.
    apply Pos2Z.pos_le_pos in Hle. rewrite Pos2Z.inj_pow in Hle.
    replace (Z.pos (Pos.size p)) with (Z.succ (Z.pos (Pos.size p) - 1)) in Hle by lia.
    rewrite Z.pow_succ_r in Hle by lia. change (Z.pos p~0) with (2 * Z.pos p)%Z in Hle.
    lia.
  - pose proof (Pos.size_gt p) as Hgt.
    apply Pos2Z.pos_lt_pos in Hgt. now rewrite Pos2Z.inj_pow in Hgt.
Qed.

Lemma digits2_pos_le (p : positive) (n : Z) :
  (0 <= n)%Z -> (Z.pos p < 2 ^ n)%Z -> (Z.pos (digits2_pos p) <= n)%Z.
Proof.
  intros Hn Hp. destruct (digits2_pos_bounds p) as [Hlo _].
  destruct (Z.le_gt_cases (Z.pos (digits2_pos p)) n) as [|Hgt]; [assumption|].
  exfalso.
  assert (2 ^ n <= 2 ^ (Z.pos (digits2_pos p) - 1))%Z
    by (apply Z.pow_le_mono_r; lia).
  lia.
Qed.

Lemma iter_xO_value (m d : positive) :
  Z.pos (Pos.iter xO m d) = (Z.pos m * 2 ^ Z.pos d)%Z.
Proof.
  induction d as [|d IH] using Pos.peano_ind.
  - cbn. lia.
  - rewrite Pos.iter_succ, Pos2Z.inj_succ, Z.pow_succ_r by lia.
    change (Z.pos (Pos.iter xO m d)~0) with (2 * Z.pos (Pos.iter xO m d))%Z.
    rewrite IH. lia.
Qed.

Lemma iter_xO_digits (m d : positive) :
  Z.pos (digits2_pos (Pos.iter xO m d)) = (Z.pos (digits2_pos m) + Z.pos d)%Z.
Proof.
  induction d as [|d IH] using Pos.peano_ind.
  - cbn. lia.
  - rewrite Pos.iter_succ. cbn [digits2_pos]. rewrite Pos2Z.inj_succ, IH. lia.
Qed.

(** [shl_align] keeps the value and the position of the leading digit. *)
Lemma shl_align_spec (m : positive) (e e' : Z) :
  let '(mz, ez) := shl_align m e e' in
  ez = Z.min e e' /\
  Z.pos mz = (Z.pos m * 2 ^ (e - ez))%Z /\
  (Z.pos (digits2_pos mz) + ez = Z.pos (digits2_pos m) + e)%Z.
Proof.
  unfold shl_align. destruct (e' - e)%Z as [|d|d] eqn:E.
  - repeat split; [lia|]. replace (e - e)%Z with 0%Z by lia. cbn. lia.
  - repeat split; [lia|]. replace (e - e)%Z with 0%Z by lia. cbn. lia.
  - repeat split; [lia| |].
    + rewrite iter_xO_value. f_equal. f_equal. lia.
    + rewrite iter_xO_digits. lia.
Qed.

Lemma fexp_eq (e : Z) : fexp prec emax e = Z.max (e - 53) (-1074).
Proof. reflexivity. Qed.

(** The mantissa and exponent of a valid finite float. *)
Lemma bounded_spec (m : positive) (e : Z) :
  bounded prec emax m e = true ->
  (Z.pos (digits2_pos m) <= 53 /\ -1074 <= e <= 971)%Z.
Proof.
  unfold bounded, canonical_mantissa. rewrite fexp_eq.
  intros Hb. apply andb_true_iff in Hb as [Hc He].
  apply Z.eqb_eq in Hc. apply Z.leb_le in He.
  change (emax - prec)%Z with 971%Z in He. lia.
Qed.

(** A number with at most 53 digits above the smallest exponent is
    represented exactly: rounding only normalises it. *)
Lemma binary_round_exact (s : bool) (m : positive) (e : Z) :
  (Z.pos (digits2_pos m) <= 53)%Z -> (-1074 <= e <= 971)%Z ->
  exists (mz : positive) (ez : Z),
    binary_round prec emax s m e = S754_finite s mz ez /\
    bounded prec emax mz ez = true /\
    (ez <= e)%Z /\ Z.pos mz = (Z.pos m * 2 ^ (e - ez))%Z.
Proof.
  intros Hd He. unfold binary_round.
  pose proof (shl_align_spec m e (fexp prec emax (Z.pos (digits2_pos m) + e))) as Hs.
  destruct (shl_align m e _) as [mz ez]. destruct Hs as (Hez & Hval & Hdig).
  rewrite fexp_eq in Hez.
  assert (Hf : fexp prec emax (Z.pos (digits2_pos mz) + ez) = ez)
    by (rewrite Hdig, fexp_eq; lia).
  exists mz, ez.
  assert (Hr : binary_round_aux prec emax s (Z.pos mz) ez loc_Exact
               = S754_finite s mz ez).
  { unfold binary_round_aux, shr_fexp. cbn [Zdigits2].
    rewrite Hf, Z.sub_diag. cbn [shr shr_record_of_loc shr_m loc_of_shr_record
                                   round_nearest_even Zdigits2].
    rewrite Hf, Z.sub_diag. cbn [shr shr_record_of_loc shr_m].
    change (emax - prec)%Z with 971%Z.
    now rewrite (proj2 (Z.leb_le ez 971)) by lia. }
  repeat split; try assumption; try lia.
  unfold bounded, canonical_mantissa. rewrite Hf, Z.eqb_refl.
  change (emax - prec)%Z with 971%Z. cbn [andb]. apply Z.leb_le. lia.
Qed.

Lemma binary_round_aux_has_sign (s : bool) (m e : Z) (l : location) :
  (0 <= m)%Z -> has_sign (binary_round_aux prec emax s m e l) s.
Proof.
  intros Hm. unfold binary_round_aux.
  pose proof (shr_fexp_nonneg m e l Hm) as H1.
  destruct (shr_fexp prec emax m e l) as [mrs' e']. cbn [fst] in H1.
  pose proof (shr_fexp_nonneg _ e' loc_Exact
                (round_nearest_even_nonneg _ (loc_of_shr_record mrs') H1)) as H2.
  destruct (shr_fexp prec emax _ e' loc_Exact) as [mrs'' e'']. cbn [fst] in H2.
  destruct (shr_m mrs'') as [|p|p]; [reflexivity| |lia].
  destruct (e'' <=? _)%Z; reflexivity.
Qed.

Lemma binary_round_has_sign (s : bool) (m : positive) (e : Z) :
  has_sign (binary_round prec emax s m e) s.
Proof.
  unfold binary_round. destruct (shl_align _ _ _) as [mz ez].
  apply binary_round_aux_has_sign. lia.
Qed.

Lemma Prim2SF_one : Prim2SF one = S754_finite false 4503599627370496 (-52).
Proof. reflexivity. Qed.

(** The sign bit read by [get_sign] is the one of the represented number. *)
Lemma get_sign_spec (f : float) (s : bool) :
  has_sign (Prim2SF f) s -> is_nan f = false /\ get_sign f = s.
Proof.
  intros Hs. split.
  - apply is_nan_Prim2SF. intros E. now rewrite E in Hs.
  - unfold get_sign, is_zero. rewrite eqb_spec, Prim2SF_zero.
    destruct (Prim2SF f) as [s'|s'| |s' m e] eqn:E; cbn [has_sign] in Hs;
      try contradiction; subst s'; unfold SFeqb; destruct s; cbn [SFcompare];
      rewrite ltb_spec, ?div_spec, ?Prim2SF_one, Prim2SF_zero, E; reflexivity.
Qed.

Lemma Prim2SF_infinity : Prim2SF infinity = S754_infinity false.
Proof. reflexivity. Qed.

(** A float that is neither NaN nor infinite is a zero or a valid finite
    number. *)
Lemma finite_float_cases (x : float) :
  is_nan x = false -> is_infinity x = false ->
  (exists s, Prim2SF x = S754_zero s) \/
  (exists s m e, Prim2SF x = S754_finite s m e /\ bounded prec emax m e = true).
Proof.
  intros Hn Hi. apply is_nan_Prim2SF in Hn.
  unfold is_infinity in Hi. rewrite eqb_spec, abs_spec, Prim2SF_infinity in Hi.
  pose proof (Prim2SF_valid x) as Hv.
  destruct (Prim2SF x) as [s|s| |s m e]; try contradiction.
  - left. now exists s.
  - discriminate Hi.
  - right. now exists s, m, e.
Qed.

(** A float that is neither NaN nor a zero is an infinity or a valid finite
    number. *)
Lemma nonzero_float_cases (y : float) :
  is_nan y = false -> (y =? zero)%float = false ->
  (exists s, Prim2SF y = S754_infinity s) \/
  (exists s m e, Prim2SF y = S754_finite s m e /\ bounded prec emax m e = true).
Proof.
  intros Hn Hz. apply is_nan_Prim2SF in Hn.
  rewrite eqb_spec, Prim2SF_zero in Hz.
  pose proof (Prim2SF_valid y) as Hv.
  destruct (Prim2SF y) as [s|s| |s m e]; try contradiction.
  - discriminate Hz.
  - left. now exists s.
  - right. now exists s, m, e.
Qed.

(** [fmod] on two finite numbers: a zero with the sign of the dividend, or a
    finite number with that sign and smaller than the divisor. *)
Lemma fmod_finite (x y : float) (sx sy : bool) (mx my : positive) (ex ey : Z) :
  Prim2SF x = S754_finite sx mx ex -> bounded prec emax mx ex = true ->
  Prim2SF y = S754_finite sy my ey -> bounded prec emax my ey = true ->
  Prim2SF (fmod x y) = S754_zero sx \/
  exists (mz : positive) (ez : Z),
    Prim2SF (fmod x y) = S754_finite sx mz ez /\
    (ez <= ey)%Z /\ (Z.pos mz < Z.pos my * 2 ^ (ey - ez))%Z.
Proof.
  intros Hx Hbx Hy Hby. unfold fmod. rewrite Hx, Hy. cbv zeta.
  destruct (bounded_spec mx ex Hbx) as [Hdx Hex].
  destruct (bounded_spec my ey Hby) as [Hdy Hey].
  set (e := Z.min ex ey).
  set (D := (Z.pos mx * 2 ^ (ex - e))%Z).
  set (M := (Z.pos my * 2 ^ (ey - e))%Z).
  assert (Hmx : (Z.pos mx < 2 ^ 53)%Z).
  { destruct (digits2_pos_bounds mx) as [_ Hlt].
    eapply Z.lt_le_trans; [exact Hlt|]. apply Z.pow_le_mono_r; lia. }
  assert (Hmy : (Z.pos my < 2 ^ 53)%Z).
  { destruct (digits2_pos_bounds my) as [_ Hlt].
    eapply Z.lt_le_trans; [exact Hlt|]. apply Z.pow_le_mono_r; lia. }
  assert (HM : (0 < M)%Z).
  { unfold M. pose proof (Z.pow_pos_nonneg 2 (ey - e)). lia. }
  assert (HD : (0 <= D)%Z).
  { unfold D. pose proof (Z.pow_pos_nonneg 2 (ex - e)). lia. }
  pose proof (Z.mod_pos_bound D M HM) as Hr.
  pose proof (Z.mod_le D M HD HM) as Hle.
  destruct (D mod M)%Z as [|p|p] eqn:Er; [| |lia].
  - left. destruct sx; cbn [cond_Zopp Z.opp binary_normalize];
      now rewrite Prim2SF_SF2Prim.
  - right.
    assert (Hp : (Z.pos p < 2 ^ 53)%Z).
    { destruct (Z.le_ge_cases ex ey) as [Hc|Hc].
      - assert (D = Z.pos mx) by (unfold D, e; rewrite Z.min_l, Z.sub_diag by lia; lia).
        lia.
      - assert (M = Z.pos my) by (unfold M, e; rewrite Z.min_r, Z.sub_diag by lia; lia).
        lia. }
    assert (Hdp : (Z.pos (digits2_pos p) <= 53)%Z) by (apply digits2_pos_le; lia).
    assert (He : (-1074 <= e <= 971)%Z) by (unfold e; lia).
    destruct (binary_round_exact sx p e Hdp He) as (mz & ez & Hround & Hb & Hez & Hval).
    exists mz, ez.
    assert (Hn : binary_normalize prec emax (cond_Zopp sx (Z.pos p)) e sx
                 = S754_finite sx mz ez)
      by (destruct sx; exact Hround).
    rewrite Hn, Prim2SF_SF2Prim by exact Hb.
    repeat split; [unfold e in Hez; lia|].
    rewrite Hval.
    replace (ey - ez)%Z with ((ey - e) + (e - ez))%Z by lia.
    rewrite Z.pow_add_r by (unfold e; lia).
    pose proof (Z.pow_pos_nonneg 2 (e - ez)).
    unfold M in Hr. nia.
Qed.

Lemma eqb_zero_spec (f : float) :
  (f =? zero)%float = SFeqb (Prim2SF f) (S754_zero false).
Proof. now rewrite eqb_spec, Prim2SF_zero. Qed.

Lemma ltb_zero_spec (f : float) :
  (f <? zero)%float = SFltb (Prim2SF f) (S754_zero false).
Proof. now rewrite ltb_spec, Prim2SF_zero. Qed.

Lemma float_rem_unfold (x y : float) :
  float_rem x y =
  if negb (fmod x y =? zero)%float then
    if negb (Bool.eqb (y <? zero)%float (fmod x y <? zero)%float)
    then (fmod x y + y)%float else fmod x y
  else if (y <? zero)%float then neg_zero else zero.
Proof. reflexivity. Qed.

(** The remainder when [fmod] gives a zero: a zero with the sign of the
    divisor. *)
Lemma float_rem_of_zero (x y : float) (s sy : bool) :
  Prim2SF (fmod x y) = S754_zero s -> has_sign (Prim2SF y) sy ->
  (y =? zero)%float = false ->
  has_sign (Prim2SF (float_rem x y)) sy.
Proof.
  intros Hmd Hy Hnz. rewrite float_rem_unfold, (eqb_zero_spec (fmod x y)), Hmd.
  cbn [SFeqb SFcompare negb]. rewrite ltb_zero_spec.
  rewrite eqb_zero_spec in Hnz.
  destruct (Prim2SF y) as [s'|s'| |s' m e]; cbn [has_sign] in Hy;
    try contradiction; try discriminate Hnz; subst s'; now destruct sy.
Qed.

(** The remainder when [fmod] gives a finite number: that number when it
    has the sign of the divisor, its sum with the divisor otherwise. *)
Lemma float_rem_of_finite (x y : float) (s sy : bool) (m : positive) (e : Z) :
  Prim2SF (fmod x y) = S754_finite s m e -> has_sign (Prim2SF y) sy ->
  (y =? zero)%float = false ->
  float_rem x y = if Bool.eqb sy s then fmod x y else (fmod x y + y)%float.
Proof.
  intros Hmd Hy Hnz.
  rewrite float_rem_unfold, (eqb_zero_spec (fmod x y)), (ltb_zero_spec (fmod x y)), Hmd.
  rewrite ltb_zero_spec. rewrite eqb_zero_spec in Hnz.
  destruct (Prim2SF y) as [s'|s'| |s' m' e']; cbn [has_sign] in Hy;
    try contradiction; try discriminate Hnz; subst s'; now destruct s, sy.
Qed.

(** For a finite dividend and a divisor that is neither NaN nor a zero, the
    remainder has the sign bit of the divisor. *)
Lemma float_rem_has_sign (x y : float) :
  is_nan x = false -> is_infinity x = false ->
  is_nan y = false -> (y =? zero)%float = false ->
  exists sy : bool,
    has_sign (Prim2SF y) sy /\ has_sign (Prim2SF (float_rem x y)) sy.
Proof.
  intros Hnx Hix Hny Hzy.
  destruct (finite_float_cases x Hnx Hix) as [[sx Hx]|(sx & mx & ex & Hx & Hbx)];
    destruct (nonzero_float_cases y Hny Hzy) as [[sy Hy]|(sy & my & ey & Hy & Hby)];
    exists sy; (split; [now rewrite Hy|]).
  - (* zero, infinity *)
    apply (float_rem_of_zero x y sx); [|now rewrite Hy|assumption].
    unfold fmod. now rewrite Hx, Hy.
  - (* zero, finite *)
    apply (float_rem_of_zero x y sx); [|now rewrite Hy|assumption].
    unfold fmod. now rewrite Hx, Hy.
  - (* finite, infinity *)
    assert (Hmd : fmod x y = x) by (unfold fmod; now rewrite Hx, Hy).
    rewrite (float_rem_of_finite x y sx sy mx ex);
      [|now rewrite Hmd|now rewrite Hy|assumption].
    rewrite Hmd. destruct (Bool.eqb sy sx) eqn:E.
    + apply eqb_prop in E. subst sy. now rewrite Hx.
    + now rewrite add_spec, Hx, Hy.
  - (* finite, finite *)
    destruct (fmod_finite x y sx sy mx my ex ey Hx Hbx Hy Hby)
      as [Hmd|(mz & ez & Hmd & Hez & Hlt)].
    + apply (float_rem_of_zero x y sx); [assumption|now rewrite Hy|assumption].
    + rewrite (float_rem_of_finite x y sx sy mz ez);
        [|assumption|now rewrite Hy|assumption].
      destruct (Bool.eqb sy sx) eqn:E.
      * apply eqb_prop in E. subst sy. now rewrite Hmd.
      * rewrite add_spec, Hmd, Hy. unfold SF64add. cbn [SFadd].
        rewrite (Z.min_l ez ey) by assumption.
        pose proof (shl_align_spec mz ez ez) as Ha.
        pose proof (shl_align_spec my ey ez) as Hb.
        destruct (shl_align mz ez ez) as [ma ea].
        destruct (shl_align my ey ez) as [mb eb].
        destruct Ha as (Hea & Hma & _). destruct Hb as (Heb & Hmb & _).
        cbn [fst].
        assert (Hab : (Z.pos ma < Z.pos mb)%Z).
        { rewrite Hma, Hmb.
          replace (ez - ea)%Z with 0%Z by lia.
          replace (ey - eb)%Z with (ey - ez)%Z by lia.
          cbn [Z.pow]. lia. }
        destruct sx, sy; try discriminate E; cbn [cond_Zopp].
        -- destruct (- Z.pos ma + Z.pos mb)%Z as [|q|q] eqn:Es; try lia.
           apply binary_round_has_sign.
        -- destruct (Z.pos ma + - Z.pos mb)%Z as [|q|q] eqn:Es; try lia.
           apply binary_round_has_sign.
Qed.

(** ** [modulus] *)

(** C8: [modulus(a, b)] raises "Modulus by zero is not allowed" whenever
    [b == 0] holds (for a float: a zero of either sign).  Otherwise, on
    [int]s it returns the remainder of the floor division, which lies
    between zero and the divisor; and as soon as one operand is a float, for
    a finite dividend and a divisor that is not NaN, it returns the float
    remainder, which is not NaN and has the sign bit of the divisor (a zero
    remainder included).  [modulus(-10, 3)] is 2 and [modulus(10, -3)] is
    -2, on [int]s and on floats. *)
Theorem modulus_by_zero_and_sign :
  (forall a b : number,
      py_eq b (Int 0) = true ->
      modulus a b = raise CalculatorError "Modulus by zero is not allowed") /\
  (forall (a : number) (f : float),
      (f =? zero)%float = true ->
      modulus a (Float f) = raise CalculatorError "Modulus by zero is not allowed") /\
  (forall a b : Z,
      b <> 0%Z ->
      modulus (Int a) (Int b) = Return (Int (a mod b)) /\
      ((0 < b)%Z -> (0 <= a mod b < b)%Z) /\
      ((b < 0)%Z -> (b < a mod b <= 0)%Z)) /\
  (forall (a b : number) (x y : float),
      is_float a || is_float b = true ->
      as_float a = Return x -> as_float b = Return y ->
      is_nan x = false -> is_infinity x = false ->
      is_nan y = false -> (y =? zero)%float = false ->
      modulus a b = Return (Float (float_rem x y)) /\
      is_nan (float_rem x y) = false /\
      get_sign (float_rem x y) = get_sign y) /\
  modulus (Int (-10)) (Int 3) = Return (Int 2) /\
  modulus (Int 10) (Int (-3)) = Return (Int (-2)) /\
  modulus (Float (-10)) (Float 3) = Return (Float 2) /\
  modulus (Float 10) (Float (-3)) = Return (Float (-2)).
Proof.
  split; [|split; [|split; [|split]]].
  - intros a b Hb. unfold modulus. now rewrite Hb.
  - intros a f Hf. unfold modulus. now rewrite py_eq_zero_float, Hf.
  - intros a b Hb. split; [|split].
    + unfold modulus. cbn [py_eq py_mod].
      now rewrite (proj2 (Z.eqb_neq b 0) Hb).
    + intros Hpos. now apply Z.mod_pos_bound.
    + intros Hlt. now apply Z.mod_neg_bound.
  - intros a b x y Hfl Ha Hb Hnx Hix Hny Hzy.
    destruct (float_rem_has_sign x y Hnx Hix Hny Hzy) as (sy & Hy & Hr).
    destruct (get_sign_spec _ _ Hy) as [_ Hsy].
    destruct (get_sign_spec _ _ Hr) as [Hn Hs].
    split; [|split; [exact Hn|now rewrite Hs, Hsy]].
    assert (Hne : py_eq b (Int 0) = false).
    { destruct b as [z|f]; cbn [as_float] in Hb.
      - cbn [py_eq]. destruct (Z.eqb_spec z 0) as [->|Hz]; [|reflexivity].
        exfalso. vm_compute in Hb. injection Hb as <-.
        vm_compute in Hzy. discriminate Hzy.
      - injection Hb as ->. now rewrite py_eq_zero_float. }
    unfold modulus. rewrite Hne.
    destruct a as [za|fa], b as [zb|fb]; cbn [is_float orb] in Hfl;
      try discriminate Hfl; cbn [py_mod]; rewrite Ha, Hb; cbn [bind];
      change (y =? 0)%float with (y =? zero)%float; now rewrite Hzy.
  - repeat (apply conj); vm_compute; reflexivity.
Qed.

Lemma modulus_float_sign_example :
  modulus (Int (-7)) (Float 2.5) = Return (Float (float_rem (-7) 2.5)) /\
  is_nan (float_rem (-7) 2.5) = false /\
  get_sign (float_rem (-7) 2.5) = get_sign 2.5.
Proof.
  apply (proj1 (proj2 (proj2 (proj2 modulus_by_zero_and_sign)))
           (Int (-7)) (Float 2.5) (-7)%float 2.5%float);
    vm_compute; reflexivity.
Defined.

(** With a divisor that is not zero, [modulus] does not always return a
    remainder with the sign of the divisor: an infinite dividend or a NaN
    operand gives NaN, and an [int] too large for a float makes the
    conversion raise [OverflowError]. *)
Lemma modulus_without_signed_remainder :
  modulus (Float infinity) (Float 3) = Return (Float nan) /\
  modulus (Float 1) (Float nan) = Return (Float nan) /\
  modulus (Int (10 ^ 400)) (Float 3) =
    raise OverflowError "int too large to convert to float".
Proof. repeat (apply conj); vm_compute; reflexivity. Qed.
